(** * The query source controller (QuerySourceCtrl) and its edit session

    A shallow embedding of [rd_ui/app/scripts/controllers/query_source.js].
    The controller keeps the text of a query as last persisted ([queryText]),
    follows the editor text ([$scope.query.query]) with a watcher that
    maintains [$scope.isDirty], and wraps the save and fork operations of
    the base controller with callbacks that reconcile the local state
    against the server's answer.

    Deferred results are modelled by a store of promise cells together
    with the queue of callbacks that Angular runs at the next digest, so
    that edits arriving between the invocation of a save and its
    completion are part of the model.

    Keyboard shortcuts, the [showDataset] getter, [base_url], [sourceMode]
    and [canEdit] are presentation state that no operation below reads;
    they are left out. *)

From Stdlib Require Import ZArith String Ascii List Bool Lia.
From stdpp Require Import base option list gmap strings.

Local Open Scope Z_scope.

(** ** Data *)

Record Visualization := {
  vis_id : Z;
  vis_name : string
}.

(** [$scope.query]: [q_id] is [None] while the query has never been
    persisted ([undefined] in the source). *)
Record Query := {
  q_id : option Z;
  q_query : string;
  q_version : Z;
  q_visualizations : list Visualization
}.

(** The value a save or fork deferred resolves with.  [sq_sourceLink] is
    the string its [getSourceLink()] method returns. *)
Record SavedQuery := {
  sq_query : string;
  sq_version : Z;
  sq_sourceLink : string
}.

(** The value a save deferred rejects with (an HTTP response). *)
Record HttpError := {
  status : Z
}.

Record Options := {
  successMessage : string;
  errorMessage : string
}.

Definition Data := list (string * string).

Record GrowlMessage := {
  growl_text : string;
  growl_ttl : option Z
}.

Record EventRecord := {
  ev_action : string;
  ev_object_type : string;
  ev_object_id : option Z
}.

Record Location := {
  loc_path : string;
  loc_search : string;
  loc_hash : string;
  loc_replace : bool
}.

(** ** Deferred results

    The callbacks the controller hands to [then] are closures over the
    session; they are represented by their names. *)

Inductive OnFulfilled :=
| SaveSuccess        (* saveQuery, first argument of then *)
| ForkSuccess        (* forkQuery, argument of then *)
| DuplicateRedirect. (* duplicateQuery, function redirect *)

Inductive OnRejected :=
| SaveError.         (* saveQuery, second argument of then *)

Record Reaction := {
  onFulfilled : option OnFulfilled;
  onRejected : option OnRejected
}.

Inductive Outcome :=
| Fulfilled (savedQuery : SavedQuery)
| Rejected (error : HttpError).

Record PromiseCell := {
  settled : option Outcome;
  reactions : list Reaction
}.

Definition pending_cell : PromiseCell :=
  {| settled := None; reactions := [] |}.

(** What a JavaScript call completes with, for the one function below
    that can throw. *)
Inductive JsError := TypeError.

Inductive Completion :=
| Returned
| Threw (e : JsError).

(** ** The session state *)

Record Session := {
  (* $scope *)
  scope_query : Query;
  isDirty : bool;
  selectedTab : string;
  (* variables of the controller's closure *)
  isNewQuery : bool;
  queryText : string;
  (* state of the injected services *)
  location : Location;
  growl : list GrowlMessage;
  events : list EventRecord;
  (* the event loop *)
  promises : gmap nat PromiseCell;
  asyncQueue : list (Reaction * Outcome);
  deleteRequests : list Visualization;
  watchLast : option string
}.

Definition DEFAULT_TAB : string := "table".

Definition currentText (s : Session) : string := q_query (scope_query s).

Definition set_query (q : Query) (s : Session) : Session :=
  {| scope_query := q; isDirty := isDirty s; selectedTab := selectedTab s;
     isNewQuery := isNewQuery s; queryText := queryText s;
     location := location s; growl := growl s; events := events s;
     promises := promises s; asyncQueue := asyncQueue s;
     deleteRequests := deleteRequests s; watchLast := watchLast s |}.

Definition set_isDirty (b : bool) (s : Session) : Session :=
  {| scope_query := scope_query s; isDirty := b; selectedTab := selectedTab s;
     isNewQuery := isNewQuery s; queryText := queryText s;
     location := location s; growl := growl s; events := events s;
     promises := promises s; asyncQueue := asyncQueue s;
     deleteRequests := deleteRequests s; watchLast := watchLast s |}.

Definition set_selectedTab (t : string) (s : Session) : Session :=
  {| scope_query := scope_query s; isDirty := isDirty s; selectedTab := t;
     isNewQuery := isNewQuery s; queryText := queryText s;
     location := location s; growl := growl s; events := events s;
     promises := promises s; asyncQueue := asyncQueue s;
     deleteRequests := deleteRequests s; watchLast := watchLast s |}.

Definition set_queryText (t : string) (s : Session) : Session :=
  {| scope_query := scope_query s; isDirty := isDirty s;
     selectedTab := selectedTab s;
     isNewQuery := isNewQuery s; queryText := t;
     location := location s; growl := growl s; events := events s;
     promises := promises s; asyncQueue := asyncQueue s;
     deleteRequests := deleteRequests s; watchLast := watchLast s |}.

Definition set_location (l : Location) (s : Session) : Session :=
  {| scope_query := scope_query s; isDirty := isDirty s;
     selectedTab := selectedTab s;
     isNewQuery := isNewQuery s; queryText := queryText s;
     location := l; growl := growl s; events := events s;
     promises := promises s; asyncQueue := asyncQueue s;
     deleteRequests := deleteRequests s; watchLast := watchLast s |}.

Definition set_growl (g : list GrowlMessage) (s : Session) : Session :=
  {| scope_query := scope_query s; isDirty := isDirty s;
     selectedTab := selectedTab s;
     isNewQuery := isNewQuery s; queryText := queryText s;
     location := location s; growl := g; events := events s;
     promises := promises s; asyncQueue := asyncQueue s;
     deleteRequests := deleteRequests s; watchLast := watchLast s |}.

Definition set_events (e : list EventRecord) (s : Session) : Session :=
  {| scope_query := scope_query s; isDirty := isDirty s;
     selectedTab := selectedTab s;
     isNewQuery := isNewQuery s; queryText := queryText s;
     location := location s; growl := growl s; events := e;
     promises := promises s; asyncQueue := asyncQueue s;
     deleteRequests := deleteRequests s; watchLast := watchLast s |}.

Definition set_promises (m : gmap nat PromiseCell) (s : Session) : Session :=
  {| scope_query := scope_query s; isDirty := isDirty s;
     selectedTab := selectedTab s;
     isNewQuery := isNewQuery s; queryText := queryText s;
     location := location s; growl := growl s; events := events s;
     promises := m; asyncQueue := asyncQueue s;
     deleteRequests := deleteRequests s; watchLast := watchLast s |}.

Definition set_asyncQueue (q : list (Reaction * Outcome)) (s : Session)
  : Session :=
  {| scope_query := scope_query s; isDirty := isDirty s;
     selectedTab := selectedTab s;
     isNewQuery := isNewQuery s; queryText := queryText s;
     location := location s; growl := growl s; events := events s;
     promises := promises s; asyncQueue := q;
     deleteRequests := deleteRequests s; watchLast := watchLast s |}.

Definition set_deleteRequests (d : list Visualization) (s : Session)
  : Session :=
  {| scope_query := scope_query s; isDirty := isDirty s;
     selectedTab := selectedTab s;
     isNewQuery := isNewQuery s; queryText := queryText s;
     location := location s; growl := growl s; events := events s;
     promises := promises s; asyncQueue := asyncQueue s;
     deleteRequests := d; watchLast := watchLast s |}.

Definition set_watchLast (l : option string) (s : Session) : Session :=
  {| scope_query := scope_query s; isDirty := isDirty s;
     selectedTab := selectedTab s;
     isNewQuery := isNewQuery s; queryText := queryText s;
     location := location s; growl := growl s; events := events s;
     promises := promises s; asyncQueue := asyncQueue s;
     deleteRequests := deleteRequests s; watchLast := l |}.

(** Assignments to fields of [$scope.query]. *)
Definition set_query_query (t : string) (s : Session) : Session :=
  let q := scope_query s in
  set_query {| q_id := q_id q; q_query := t; q_version := q_version q;
               q_visualizations := q_visualizations q |} s.

Definition set_query_version (v : Z) (s : Session) : Session :=
  let q := scope_query s in
  set_query {| q_id := q_id q; q_query := q_query q; q_version := v;
               q_visualizations := q_visualizations q |} s.

Definition set_query_visualizations (l : list Visualization) (s : Session)
  : Session :=
  let q := scope_query s in
  set_query {| q_id := q_id q; q_query := q_query q;
               q_version := q_version q; q_visualizations := l |} s.

(** The draft of the specification's data model, read off a session. *)
Record QueryDraft := {
  persistedText : string;
  draftText : string;
  draftVersion : Z;
  isNew : bool
}.

Definition draft (s : Session) : QueryDraft :=
  {| persistedText := queryText s;
     draftText := currentText s;
     draftVersion := q_version (scope_query s);
     isNew := isNewQuery s |}.

(** [a !== b] on strings. *)
Definition strict_neq (a b : string) : bool := negb (String.eqb a b).

(** [!id]: [undefined] and [0] are falsy. *)
Definition js_not_id (i : option Z) : bool :=
  match i with
  | None => true
  | Some n => n =? 0
  end.

(** ** Injected services *)

(** Modelled from the spec: Angular's [$location] service is not part of
    the repository.  Section 6 describes the navigation collaborator as
    accepting a path or a full URL, with a flag to replace the history
    entry; [path] keeps the URL fragment, [url] takes every component
    from its argument. *)
Fixpoint before_char (c : ascii) (s : string) : string :=
  match s with
  | EmptyString => EmptyString
  | String a r => if Ascii.eqb a c then EmptyString
                  else String a (before_char c r)
  end.

Fixpoint after_char (c : ascii) (s : string) : option string :=
  match s with
  | EmptyString => None
  | String a r => if Ascii.eqb a c then Some r else after_char c r
  end.

Definition url_hash (u : string) : string :=
  default EmptyString (after_char "#" u).

Definition url_search (u : string) : string :=
  default EmptyString (after_char "?" (before_char "#" u)).

Definition url_path (u : string) : string :=
  before_char "?" (before_char "#" u).

Definition location_path (p : string) (l : Location) : Location :=
  {| loc_path := p; loc_search := loc_search l; loc_hash := loc_hash l;
     loc_replace := loc_replace l |}.

Definition location_url (u : string) (l : Location) : Location :=
  {| loc_path := url_path u; loc_search := url_search u;
     loc_hash := url_hash u; loc_replace := loc_replace l |}.

Definition location_hash (h : string) (l : Location) : Location :=
  {| loc_path := loc_path l; loc_search := loc_search l; loc_hash := h;
     loc_replace := loc_replace l |}.

Definition location_replace (l : Location) : Location :=
  {| loc_path := loc_path l; loc_search := loc_search l;
     loc_hash := loc_hash l; loc_replace := true |}.

(** Modelled from the spec: the growl notification service is not part of
    the repository.  A message carries the time-to-live it was added
    with, [None] when the caller passed no configuration; section 6 calls
    the time-to-live of the conflict warning, [-1], non-expiring. *)
Definition growl_addErrorMessage (text : string) (ttl : option Z)
  (s : Session) : Session :=
  set_growl (growl s ++ [{| growl_text := text; growl_ttl := ttl |}]) s.

Definition non_expiring (m : GrowlMessage) : bool :=
  match growl_ttl m with
  | Some t => t =? -1
  | None => false
  end.

(** [Events.record(currentUser, action, object_type, object_id)]; the
    user is the ambient global and is not recorded here. *)
Definition Events_record (action object_type : string) (object_id : option Z)
  (s : Session) : Session :=
  set_events (events s ++ [{| ev_action := action;
                              ev_object_type := object_type;
                              ev_object_id := object_id |}]) s.

(** The collaborators the controller is given.

    Modelled from the spec: the base controller QueryViewCtrl is not part
    of the repository.  Its [saveQuery] and [forkQuery] answer with a
    deferred result or with nothing (section 6) and never mutate client
    state themselves (section 5), so each is a function from the
    arguments and the session to an optional promise.  [confirm] is the
    browser's dialog.  [loose_eq] is JavaScript's [==] between the tab
    name, a string, and the numeric id of a visualization; its coercion
    of strings to numbers is part of the language, not of the
    repository, and is taken as given. *)
Class Services := {
  QueryViewCtrl_saveQuery : option Options -> option Data -> Session -> option nat;
  QueryViewCtrl_forkQuery : option Options -> option Data -> Session -> option nat;
  confirm : string -> bool;
  loose_eq : string -> Z -> bool
}.

(** ** Promises and the digest *)

Definition cell_of (s : Session) (p : nat) : PromiseCell :=
  default pending_cell (promises s !! p).

(** [p.then(onFulfilled, onRejected)]: a pending promise keeps the
    reaction until it settles; on a settled one the reaction is queued
    for the next digest.  The derived promise is not represented: every
    call site in the controller discards it. *)
Definition promise_then (p : nat) (r : Reaction) (s : Session) : Session :=
  let c := cell_of s p in
  match settled c with
  | None =>
      set_promises
        (<[p := {| settled := None; reactions := reactions c ++ [r] |}]>
           (promises s)) s
  | Some o => set_asyncQueue (asyncQueue s ++ [(r, o)]) s
  end.

(** The environment settles a deferred: its reactions are queued in the
    order they were attached.  A deferred settles at most once. *)
Definition settle (p : nat) (o : Outcome) (s : Session) : Session :=
  let c := cell_of s p in
  match settled c with
  | Some _ => s
  | None =>
      set_asyncQueue (asyncQueue s ++ map (fun r => (r, o)) (reactions c))
        (set_promises
           (<[p := {| settled := Some o; reactions := [] |}]> (promises s)) s)
  end.

(** ** The controller *)

Section Controller.

Context `{Services}.

(** The constructor, applied to the scope as the base controller left it. *)
Definition QuerySourceCtrl (query : Query) (tab : string) (loc : Location)
  : Session :=
  Events_record "view_source" "query" (q_id query)
    {| scope_query := query; isDirty := false; selectedTab := tab;
       isNewQuery := js_not_id (q_id query); queryText := q_query query;
       location := loc; growl := []; events := [];
       promises := ∅; asyncQueue := []; deleteRequests := [];
       watchLast := None |}.

(** Success callback of [$scope.saveQuery]. *)
Definition saveQuery_onSuccess (savedQuery : SavedQuery) (s : Session)
  : Session :=
  let s := set_queryText (sq_query savedQuery) s in
  let s := set_isDirty (strict_neq (q_query (scope_query s)) (queryText s)) s in
  let s := set_query_version (sq_version savedQuery) s in
  if isNewQuery s
  then set_location (location_path (sq_sourceLink savedQuery) (location s)) s
  else s.

Definition conflict_message : string :=
  "It seems like the query has been modified by another user. " +:+
  "Please copy/backup your changes and reload this page.".

(** Error callback of [$scope.saveQuery]. *)
Definition saveQuery_onError (error : HttpError) (s : Session) : Session :=
  if status error =? 409
  then growl_addErrorMessage conflict_message (Some (-1)) s
  else s.

Definition save_reaction : Reaction :=
  {| onFulfilled := Some SaveSuccess; onRejected := Some SaveError |}.

(** [$scope.saveQuery]; the result is the promise returned, [None] for
    [undefined]. *)
Definition saveQuery (options : option Options) (data : option Data)
  (s : Session) : Session * option nat :=
  match QueryViewCtrl_saveQuery options data s with
  | None => (s, None)
  | Some savePromise =>
      (promise_then savePromise save_reaction s, Some savePromise)
  end.

(** Success callback of [$scope.forkQuery]. *)
Definition forkQuery_onSuccess (savedQuery : SavedQuery) (s : Session)
  : Session :=
  set_queryText (sq_query savedQuery) s.

Definition fork_reaction : Reaction :=
  {| onFulfilled := Some ForkSuccess; onRejected := None |}.

(** [$scope.forkQuery]. *)
Definition forkQuery (options : option Options) (data : option Data)
  (s : Session) : Session * option nat :=
  match QueryViewCtrl_forkQuery options data s with
  | None => (s, None)
  | Some savePromise =>
      (promise_then savePromise fork_reaction s, Some savePromise)
  end.

(** [redirect], the callback of [$scope.duplicateQuery]. *)
Definition redirect (savedQuery : SavedQuery) (s : Session) : Session :=
  set_location
    (location_replace (location_url (sq_sourceLink savedQuery) (location s)))
    s.

Definition redirect_reaction : Reaction :=
  {| onFulfilled := Some DuplicateRedirect; onRejected := None |}.

Definition duplicate_options : Options :=
  {| successMessage := "Query forked";
     errorMessage := "Query could not be forked" |}.

(** [$scope.duplicateQuery]: [then] is called on whatever
    [$scope.forkQuery] returned; on [undefined] the property access
    throws. *)
Definition duplicateQuery (s : Session) : Session * Completion :=
  let s := Events_record "fork" "query" (q_id (scope_query s)) s in
  match forkQuery (Some duplicate_options) None s with
  | (s, Some p) => (promise_then p redirect_reaction s, Returned)
  | (s, None) => (s, Threw TypeError)
  end.

(** Success callback handed to [Visualization.delete]. *)
Definition deleteVisualization_onSuccess (vis : Visualization) (s : Session)
  : Session :=
  let s :=
    if loose_eq (selectedTab s) (vis_id vis)
    then
      let s := set_selectedTab DEFAULT_TAB s in
      set_location (location_hash (selectedTab s) (location s)) s
    else s in
  set_query_visualizations
    (filter (fun v => vis_id vis ≠ vis_id v)
       (q_visualizations (scope_query s))) s.

(** Error callback handed to [Visualization.delete]. *)
Definition deleteVisualization_onError (s : Session) : Session :=
  growl_addErrorMessage
    "Error deleting visualization. Maybe it's used in a dashboard?" None s.

(** [$scope.deleteVisualization]; [$e.preventDefault()] acts on the DOM
    event only.  [Visualization.delete] keeps the two callbacks, which
    close over [vis], until the server answers. *)
Definition deleteVisualization (vis : Visualization) (s : Session) : Session :=
  if confirm ("Are you sure you want to delete " +:+ vis_name vis +:+ " ?")
  then
    let s := Events_record "delete" "visualization" (Some (vis_id vis)) s in
    set_deleteRequests (deleteRequests s ++ [vis]) s
  else s.

(** Listener of [$scope.$watch('query.query', ...)]. *)
Definition watch_query_query (newQueryText : string) (s : Session) : Session :=
  set_isDirty (strict_neq newQueryText (queryText s)) s.

(** ** The event loop *)

Definition run_reaction (r : Reaction) (o : Outcome) (s : Session) : Session :=
  match o with
  | Fulfilled savedQuery =>
      match onFulfilled r with
      | Some SaveSuccess => saveQuery_onSuccess savedQuery s
      | Some ForkSuccess => forkQuery_onSuccess savedQuery s
      | Some DuplicateRedirect => redirect savedQuery s
      | None => s
      end
  | Rejected error =>
      match onRejected r with
      | Some SaveError => saveQuery_onError error s
      | None => s
      end
  end.

Definition run_jobs (jobs : list (Reaction * Outcome)) (s : Session)
  : Session :=
  fold_left (fun acc job => run_reaction (fst job) (snd job) acc) jobs s.

(** The callbacks queued by settled promises run first. *)
Definition drain (s : Session) : Session :=
  run_jobs (asyncQueue s) (set_asyncQueue [] s).

(** A watcher's listener runs when the watched value differs from the
    one seen at the previous digest, and at the first digest. *)
Definition run_watchers (s : Session) : Session :=
  if decide (watchLast s = Some (currentText s)) then s
  else set_watchLast (Some (currentText s))
         (watch_query_query (currentText s) s).

Definition digest (s : Session) : Session := run_watchers (drain s).

Inductive Event :=
| EvEdit (newText : string)
| EvSave (options : option Options) (data : option Data)
| EvFork (options : option Options) (data : option Data)
| EvDuplicate
| EvDeleteVisualization (vis : Visualization)
| EvSettle (p : nat) (o : Outcome)
| EvDeleteResponse (k : nat) (ok : bool).

(** The handler an event runs, before the digest. *)
Definition handle (e : Event) (s : Session) : Session :=
  match e with
  | EvEdit newText => set_query_query newText s
  | EvSave options data => fst (saveQuery options data s)
  | EvFork options data => fst (forkQuery options data s)
  | EvDuplicate => fst (duplicateQuery s)
  | EvDeleteVisualization vis => deleteVisualization vis s
  | EvSettle p o => settle p o s
  | EvDeleteResponse k ok =>
      match deleteRequests s !! k with
      | None => s
      | Some vis =>
          let s := set_deleteRequests (delete k (deleteRequests s)) s in
          if ok then deleteVisualization_onSuccess vis s
          else deleteVisualization_onError s
      end
  end.

Definition step (e : Event) (s : Session) : Session := digest (handle e s).

Definition run (es : list Event) (s : Session) : Session :=
  fold_left (fun acc e => step e acc) es s.

(** A session as it is when the controller has been instantiated and the
    first digest has run. *)
Definition open_session (query : Query) (tab : string) (loc : Location)
  : Session :=
  digest (QuerySourceCtrl query tab loc).

(** The edit operation of the specification: the editor writes the text
    and the digest that follows runs the watcher. *)
Definition edit (newText : string) (s : Session) : Session :=
  step (EvEdit newText) s.

(** Between events nothing is queued and the watcher has seen the
    current text. *)
Definition quiescent (s : Session) : Prop :=
  asyncQueue s = [] ∧ watchLast s = Some (currentText s).

(** The invariant of the data model. *)
Definition dirty_invariant (s : Session) : Prop :=
  isDirty s = strict_neq (currentText s) (queryText s).

(** The state a successful save leaves behind. *)
Definition reconciled (savedQuery : SavedQuery) (s : Session) : Prop :=
  queryText s = sq_query savedQuery ∧
  q_version (scope_query s) = sq_version savedQuery ∧
  isDirty s = strict_neq (currentText s) (sq_query savedQuery).

End Controller.

(** ** Keyboard shortcuts

    The [shortcuts] object of the constructor.  The two save entries are
    closures that read [$scope.canEdit] and call [$scope.saveQuery()]
    without arguments; the two execute entries hold the value
    [$scope.executeQuery] had at construction, a function of the base
    controller that is given here as [executeQuery]. *)

Inductive ShortcutHandler :=
| SaveIfCanEdit
| ExecuteQuery.

Definition shortcuts : list (string * ShortcutHandler) :=
  [ ("meta+s", SaveIfCanEdit);
    ("ctrl+s", SaveIfCanEdit);
    ("meta+enter", ExecuteQuery);
    ("ctrl+enter", ExecuteQuery) ].

Fixpoint shortcut_for (key : string) (table : list (string * ShortcutHandler))
  : option ShortcutHandler :=
  match table with
  | [] => None
  | (k, h) :: rest => if String.eqb k key then Some h else shortcut_for key rest
  end.

Section Shortcuts.

Context `{Services}.
Variable executeQuery : Session -> Session.

Definition run_shortcut (canEdit : bool) (h : ShortcutHandler) (s : Session)
  : Session :=
  match h with
  | SaveIfCanEdit => if canEdit then fst (saveQuery None None s) else s
  | ExecuteQuery => executeQuery s
  end.

(** A key press while the object is bound; [canEdit] is the value of
    [$scope.canEdit] at that moment. *)
Definition press (canEdit : bool) (key : string) (s : Session) : Session :=
  match shortcut_for key shortcuts with
  | Some h => run_shortcut canEdit h s
  | None => s
  end.

End Shortcuts.

(** The text of the confirmation dialog of [deleteVisualization]. *)
Definition delete_prompt (vis : Visualization) : string :=
  "Are you sure you want to delete " +:+ vis_name vis +:+ " ?".

(** The record [Events.record] adds for an action on an object. *)
Definition event_record (action object_type : string) (object_id : option Z)
  : EventRecord :=
  {| ev_action := action; ev_object_type := object_type;
     ev_object_id := object_id |}.

(** ** Sample collaborators, for running the model *)

(** Reads a string of decimal digits; the empty string converts to the
    number zero. *)
Definition digit_value (c : ascii) : option Z :=
  let n := Z.of_nat (nat_of_ascii c) in
  if (48 <=? n) && (n <=? 57) then Some (n - 48) else None.

Fixpoint decimal_value (acc : Z) (s : string) : option Z :=
  match s with
  | EmptyString => Some acc
  | String c r =>
      match digit_value c with
      | Some d => decimal_value (10 * acc + d) r
      | None => None
      end
  end.

Definition decimal_loose_eq (tab : string) (n : Z) : bool :=
  match decimal_value 0 tab with
  | Some m => m =? n
  | None => false
  end.

(** Every save answers with deferred 0, every fork with deferred 1, and
    the user confirms every dialog. *)
Definition sample_services : Services :=
  {| QueryViewCtrl_saveQuery := fun _ _ _ => Some 0%nat;
     QueryViewCtrl_forkQuery := fun _ _ _ => Some 1%nat;
     confirm := fun _ => true;
     loose_eq := decimal_loose_eq |}.

(** The base controller declines to save or fork (nothing to persist). *)
Definition declining_services : Services :=
  {| QueryViewCtrl_saveQuery := fun _ _ _ => None;
     QueryViewCtrl_forkQuery := fun _ _ _ => None;
     confirm := fun _ => true;
     loose_eq := decimal_loose_eq |}.

(** Every save and every fork answers with a deferred of its own. *)
Definition counting_services : Services :=
  {| QueryViewCtrl_saveQuery := fun _ _ s => Some (size (promises s));
     QueryViewCtrl_forkQuery := fun _ _ s => Some (size (promises s));
     confirm := fun _ => true;
     loose_eq := decimal_loose_eq |}.

(** The user cancels every dialog. *)
Definition cancelling_services : Services :=
  {| QueryViewCtrl_saveQuery := fun _ _ _ => Some 0%nat;
     QueryViewCtrl_forkQuery := fun _ _ _ => Some 1%nat;
     confirm := fun _ => false;
     loose_eq := decimal_loose_eq |}.

Definition sample_location : Location :=
  {| loc_path := "/queries/7/source"; loc_search := "";
     loc_hash := "12"; loc_replace := false |}.

Definition sample_query : Query :=
  {| q_id := Some 7; q_query := "SELECT 1"; q_version := 1;
     q_visualizations :=
       [ {| vis_id := 11; vis_name := "Table" |};
         {| vis_id := 12; vis_name := "Chart" |};
         {| vis_id := 13; vis_name := "Pivot" |} ] |}.

Definition sample_new_query : Query :=
  {| q_id := None; q_query := ""; q_version := 0;
     q_visualizations := [] |}.

Definition sample_session : Session :=
  open_session sample_query "12" sample_location.

Definition sample_new_location : Location :=
  {| loc_path := "/queries/new"; loc_search := ""; loc_hash := "chart";
     loc_replace := false |}.

Definition sample_new_session : Session :=
  open_session sample_new_query "table" sample_new_location.

Definition sample_saved : SavedQuery :=
  {| sq_query := "SELECT 2"; sq_version := 2;
     sq_sourceLink := "/queries/7/source" |}.

Definition sample_forked : SavedQuery :=
  {| sq_query := "SELECT 2"; sq_version := 1;
     sq_sourceLink := "/queries/8/source" |}.

(** Sessions with deletions in flight. *)
Definition sample_chart : Visualization :=
  {| vis_id := 12; vis_name := "Chart" |}.

Definition sample_table : Visualization :=
  {| vis_id := 11; vis_name := "Table" |}.

Definition sample_gone : Visualization :=
  {| vis_id := 99; vis_name := "Gone" |}.

Definition sample_two_requests : Session :=
  @run sample_services
    [EvDeleteVisualization sample_table; EvDeleteVisualization sample_chart]
    sample_session.

Definition sample_unknown_request : Session :=
  @run sample_services
    [EvDeleteVisualization sample_gone]
    sample_session.

Ltac callbacks :=
  unfold saveQuery_onSuccess, saveQuery_onError, forkQuery_onSuccess,
    redirect, watch_query_query, growl_addErrorMessage, Events_record,
    set_query_version, set_query_query, set_query_visualizations,
    currentText in *.


Section Reconciliation.
Context `{SV : Services}.

Lemma run_reaction_loop r o s :
  promises (run_reaction r o s) = promises s ∧
  asyncQueue (run_reaction r o s) = asyncQueue s ∧
  watchLast (run_reaction r o s) = watchLast s ∧
  deleteRequests (run_reaction r o s) = deleteRequests s ∧
  currentText (run_reaction r o s) = currentText s ∧
  isNewQuery (run_reaction r o s) = isNewQuery s.
Proof.
  destruct o as [sq|e], r as [[[]|] [[]|]]; simpl; callbacks;
    repeat case_match; simpl; by repeat split.
Qed.

Lemma run_jobs_loop jobs : ∀ s,
  promises (run_jobs jobs s) = promises s ∧
  asyncQueue (run_jobs jobs s) = asyncQueue s ∧
  watchLast (run_jobs jobs s) = watchLast s ∧
  deleteRequests (run_jobs jobs s) = deleteRequests s ∧
  currentText (run_jobs jobs s) = currentText s ∧
  isNewQuery (run_jobs jobs s) = isNewQuery s.
Proof.
  induction jobs as [|[r o] jobs IH]; intros s; [by auto|].
  unfold run_jobs in *; simpl.
  destruct (IH (run_reaction r o s)) as (-> & -> & -> & -> & -> & ->).
  apply run_reaction_loop.
Qed.

Lemma digest_loop s :
  promises (digest s) = promises s ∧
  asyncQueue (digest s) = [] ∧
  watchLast (digest s) = Some (currentText s) ∧
  deleteRequests (digest s) = deleteRequests s ∧
  currentText (digest s) = currentText s ∧
  isNewQuery (digest s) = isNewQuery s.
Proof.
  unfold digest, drain, run_watchers.
  destruct (run_jobs_loop (asyncQueue s) (set_asyncQueue [] s))
    as (Hp & Hq & Hw & Hd & Ht & Hn).
  simpl in *.
  case_decide as Hdec; callbacks; simpl; rewrite ?Hp, ?Hq, ?Hd, ?Hn;
    repeat split; try done.
  - rewrite Hdec. f_equal. exact Ht.
  - f_equal. exact Ht.
Qed.

Lemma step_loop e s :
  asyncQueue (step e s) = [] ∧
  watchLast (step e s) = Some (currentText (step e s)).
Proof.
  unfold step.
  destruct (digest_loop (handle e s)) as (_ & -> & -> & _ & -> & _). done.
Qed.

Lemma step_quiescent e s : quiescent (step e s).
Proof. apply step_loop. Qed.

Lemma step_edit_loop t s :
  promises (step (EvEdit t) s) = promises s ∧
  currentText (step (EvEdit t) s) = t ∧
  isNewQuery (step (EvEdit t) s) = isNewQuery s.
Proof.
  unfold step.
  destruct (digest_loop (handle (EvEdit t) s)) as (-> & _ & _ & _ & -> & ->).
  done.
Qed.

Lemma run_app es1 es2 s : run (es1 ++ es2) s = run es2 (run es1 s).
Proof. unfold run. apply fold_left_app. Qed.

Lemma run_cons e es s : run (e :: es) s = run es (step e s).
Proof. done. Qed.

Lemma run_edits_loop edits : ∀ s,
  promises (run (map EvEdit edits) s) = promises s ∧
  currentText (run (map EvEdit edits) s) = List.last edits (currentText s) ∧
  isNewQuery (run (map EvEdit edits) s) = isNewQuery s.
Proof.
  induction edits as [|t edits IH]; intros s; [done|].
  rewrite map_cons, run_cons.
  destruct (IH (step (EvEdit t) s)) as (-> & -> & ->).
  destruct (step_edit_loop t s) as (-> & -> & ->).
  repeat split. destruct edits; simpl; [done|]. 
  clear. revert s0. induction edits; simpl; intros; [done|]. apply IHedits.
Qed.

Lemma run_edits_quiescent edits s :
  quiescent s → quiescent (run (map EvEdit edits) s).
Proof.
  revert s. induction edits as [|t edits IH]; intros s Hs; [done|].
  rewrite map_cons, run_cons. apply IH, step_quiescent.
Qed.

Lemma promise_then_pending p r s :
  settled (cell_of s p) = None →
  promise_then p r s =
  set_promises
    (<[p := {| settled := None; reactions := reactions (cell_of s p) ++ [r] |}]>
       (promises s)) s.
Proof. intros Hs. unfold promise_then. by rewrite Hs. Qed.

Lemma settle_pending p o s :
  settled (cell_of s p) = None →
  settle p o s =
  set_asyncQueue (asyncQueue s ++ map (fun r => (r, o)) (reactions (cell_of s p)))
    (set_promises
       (<[p := {| settled := Some o; reactions := [] |}]> (promises s)) s).
Proof. intros Hs. unfold settle. by rewrite Hs. Qed.

Lemma cell_of_promises s s' p :
  promises s' = promises s → cell_of s' p = cell_of s p.
Proof. unfold cell_of. by intros ->. Qed.

Lemma cell_of_insert p c m s :
  promises s = <[p := c]> m → cell_of s p = c.
Proof. unfold cell_of. intros ->. by rewrite lookup_insert_eq. Qed.

Lemma run_jobs_app l1 l2 s : run_jobs (l1 ++ l2) s = run_jobs l2 (run_jobs l1 s).
Proof. unfold run_jobs. apply fold_left_app. Qed.

Lemma saveQuery_onSuccess_reconciled sq s :
  reconciled sq (saveQuery_onSuccess sq s).
Proof.
  unfold reconciled; callbacks. by destruct (isNewQuery s) eqn:E; simpl; rewrite E.
Qed.

Lemma run_watchers_reconciled sq s :
  reconciled sq s → reconciled sq (run_watchers s).
Proof.
  unfold reconciled, run_watchers. intros (Hq & Hv & Hd).
  case_decide; [done|]. callbacks; simpl. by rewrite Hq.
Qed.

Lemma run_watchers_text s : currentText (run_watchers s) = currentText s.
Proof. unfold run_watchers. by case_decide. Qed.

Lemma step_settle p o s :
  asyncQueue s = [] →
  settled (cell_of s p) = None →
  step (EvSettle p o) s =
  run_watchers
    (run_jobs (map (fun r => (r, o)) (reactions (cell_of s p)))
       (set_promises
          (<[p := {| settled := Some o; reactions := [] |}]> (promises s)) s)).
Proof.
  intros Hq Hpend. unfold step, digest, drain. cbn [handle].
  rewrite settle_pending by done. rewrite Hq.
  destruct s; simpl in *; subst; reflexivity.
Qed.

Lemma step_save_pending options data p s :
  QueryViewCtrl_saveQuery options data s = Some p →
  settled (cell_of s p) = None →
  step (EvSave options data) s =
  digest (set_promises
    (<[p := {| settled := None;
               reactions := reactions (cell_of s p) ++ [save_reaction] |}]>
       (promises s)) s).
Proof.
  intros Hp Hpend. unfold step. cbn [handle]. unfold saveQuery.
  rewrite Hp. cbn [fst]. by rewrite promise_then_pending.
Qed.

Lemma run_save_edits_resolve (s : Session) options data p
    (edits : list string) (savedQuery : SavedQuery) :
  QueryViewCtrl_saveQuery options data s = Some p →
  settled (cell_of s p) = None →
  let s' := run (EvSave options data :: map EvEdit edits ++
                 [EvSettle p (Fulfilled savedQuery)]) s in
  currentText s' = List.last edits (currentText s) ∧
  reconciled savedQuery s'.
Proof.
  intros Hp Hpend s'. subst s'.
  rewrite run_cons, run_app.
  set (s1 := step (EvSave options data) s).
  set (s2 := run (map EvEdit edits) s1).
  pose proof (step_save_pending _ _ _ _ Hp Hpend) as Hs1. fold s1 in Hs1.
  match type of Hs1 with _ = digest ?a =>
    destruct (digest_loop a) as (Hp1 & _ & _ & _ & Ht1 & _) end.
  rewrite <- Hs1 in Hp1, Ht1.
  assert (Hc1 : cell_of s1 p =
    {| settled := None;
       reactions := reactions (cell_of s p) ++ [save_reaction] |})
    by (eapply cell_of_insert; exact Hp1).
  destruct (run_edits_loop edits s1) as (Hp2 & Ht2 & _).
  fold s2 in Hp2, Ht2.
  assert (Hq2 : quiescent s2) by apply run_edits_quiescent, step_quiescent.
  assert (Hc2 : cell_of s2 p = cell_of s1 p) by by apply cell_of_promises.
  rewrite Hc1 in Hc2. destruct Hq2 as [Hq2 _].
  cbn [run fold_left].
  rewrite step_settle by (by rewrite ?Hc2).
  rewrite Hc2. cbn [reactions].
  rewrite map_app, run_jobs_app.
  match goal with |- context [run_jobs (map ?f ?l) ?a] =>
    set (x := run_jobs (map f l) a);
    assert (Hx : currentText x = currentText s2)
      by (subst x; by destruct (run_jobs_loop (map f l) a)
                        as (_ & _ & _ & _ & -> & _))
  end.
  change (run_jobs (map _ [save_reaction]) x)
    with (saveQuery_onSuccess savedQuery x).
  pose proof (run_watchers_reconciled _ _
    (saveQuery_onSuccess_reconciled savedQuery x)) as (Ha & Hb & Hc).
  split; [|done].
  rewrite run_watchers_text.
  change (currentText s1 = currentText s) in Ht1.
  rewrite <- Ht1, <- Ht2, <- Hx.
  clear. callbacks. by destruct (isNewQuery x) eqn:E; simpl; rewrite E.
Qed.

(** C1.  A save whose deferred was pending when it was returned, then any
    number of edits, then the deferred resolving with [savedQuery]: the
    persisted text and the version are the server's, the editor text is
    the last edit (the text at invocation when there was none), and
    [isDirty] compares that live text, not the text at the time of the
    call, with the server's. *)
Theorem save_success_reconciles (s : Session) options data p
    (edits : list string) (savedQuery : SavedQuery) :
  QueryViewCtrl_saveQuery options data s = Some p →
  settled (cell_of s p) = None →
  let s' := run (EvSave options data :: map EvEdit edits ++
                 [EvSettle p (Fulfilled savedQuery)]) s in
  currentText s' = List.last edits (currentText s) ∧
  queryText s' = sq_query savedQuery ∧
  q_version (scope_query s') = sq_version savedQuery ∧
  isDirty s' = strict_neq (currentText s') (sq_query savedQuery).
Proof.
  intros Hp Hpend s'.
  destruct (run_save_edits_resolve s options data p edits savedQuery Hp Hpend)
    as (Ht & Hq & Hv & Hd).
  done.
Qed.

(** A save on a deferred that had already resolved when it was returned:
    the callback runs at the digest that ends the same event. *)
Lemma step_save_resolved (s : Session) options data p
    (savedQuery : SavedQuery) :
  QueryViewCtrl_saveQuery options data s = Some p →
  settled (cell_of s p) = Some (Fulfilled savedQuery) →
  reconciled savedQuery (step (EvSave options data) s).
Proof.
  intros Hp Hs. unfold step. cbn [handle]. unfold saveQuery, promise_then.
  rewrite Hp, Hs. cbn [fst]. unfold digest, drain.
  cbn [asyncQueue set_asyncQueue]. rewrite run_jobs_app.
  apply run_watchers_reconciled, saveQuery_onSuccess_reconciled.
Qed.

Lemma reconciled_dirty_invariant sq s : reconciled sq s → dirty_invariant s.
Proof. unfold dirty_invariant. by intros (-> & _ & ->). Qed.

(** The invariant holds after every successful save. *)
Lemma save_success_dirty_invariant (s : Session) options data p
    (edits : list string) (savedQuery : SavedQuery) :
  QueryViewCtrl_saveQuery options data s = Some p →
  settled (cell_of s p) = None →
  dirty_invariant
    (run (EvSave options data :: map EvEdit edits ++
          [EvSettle p (Fulfilled savedQuery)]) s).
Proof.
  intros Hp Hpend. eapply reconciled_dirty_invariant.
  apply (run_save_edits_resolve s options data p edits savedQuery Hp Hpend).
Qed.

Lemma cell_of_fresh s p :
  promises s !! p = None → cell_of s p = pending_cell.
Proof. unfold cell_of. by intros ->. Qed.

Lemma run_watchers_stable s :
  watchLast s = Some (currentText s) → run_watchers s = s.
Proof. intros Hw. unfold run_watchers. by case_decide. Qed.

Lemma digest_quiescent s : quiescent s → digest s = s.
Proof.
  intros [Hq Hw]. unfold digest, drain. rewrite Hq. cbn [run_jobs fold_left].
  rewrite run_watchers_stable; destruct s; simpl in *; by subst.
Qed.

Lemma run_quiescent es s : quiescent s → quiescent (run es s).
Proof.
  revert s. induction es as [|e es IH]; intros s Hs; [done|].
  rewrite run_cons. apply IH, step_quiescent.
Qed.

Lemma handle_save_fresh options data p s :
  QueryViewCtrl_saveQuery options data s = Some p →
  cell_of s p = pending_cell →
  handle (EvSave options data) s =
  set_promises
    (<[p := {| settled := None; reactions := [save_reaction] |}]> (promises s)) s.
Proof.
  intros Hp Hf. cbn [handle]. unfold saveQuery. rewrite Hp. cbn [fst].
  rewrite promise_then_pending; by rewrite Hf.
Qed.

Lemma handle_fork_fresh options data p s :
  QueryViewCtrl_forkQuery options data s = Some p →
  cell_of s p = pending_cell →
  handle (EvFork options data) s =
  set_promises
    (<[p := {| settled := None; reactions := [fork_reaction] |}]> (promises s)) s.
Proof.
  intros Hp Hf. cbn [handle]. unfold forkQuery. rewrite Hp. cbn [fst].
  rewrite promise_then_pending; by rewrite Hf.
Qed.

Lemma attach_then_edits e r p edits s :
  promises (handle e s) =
    <[p := {| settled := None; reactions := [r] |}]> (promises s) →
  quiescent (run (e :: map EvEdit edits) s) ∧
  cell_of (run (e :: map EvEdit edits) s) p =
    {| settled := None; reactions := [r] |}.
Proof.
  intros Hh. rewrite run_cons. split.
  - apply run_edits_quiescent, step_quiescent.
  - destruct (run_edits_loop edits (step e s)) as (Hp & _).
    eapply cell_of_insert. rewrite Hp. unfold step.
    destruct (digest_loop (handle e s)) as (-> & _). exact Hh.
Qed.

Lemma step_settle_single p o r s :
  quiescent s →
  cell_of s p = {| settled := None; reactions := [r] |} →
  step (EvSettle p o) s =
  run_watchers
    (run_reaction r o
       (set_promises
          (<[p := {| settled := Some o; reactions := [] |}]> (promises s)) s)).
Proof.
  intros [Hq _] Hc. rewrite step_settle by (by rewrite ?Hc). by rewrite Hc.
Qed.

(** C4.  A save on a fresh deferred that is rejected with status 409:
    the persisted text, the version and the editor text are what they
    were just before the rejection, and exactly one warning is added,
    the conflict message, whose time-to-live [-1] never expires. *)
Theorem save_conflict_warns (s : Session) options data p
    (edits : list string) (error : HttpError) :
  QueryViewCtrl_saveQuery options data s = Some p →
  cell_of s p = pending_cell →
  status error = 409 →
  let s1 := run (EvSave options data :: map EvEdit edits) s in
  let s2 := step (EvSettle p (Rejected error)) s1 in
  queryText s2 = queryText s1 ∧
  q_version (scope_query s2) = q_version (scope_query s1) ∧
  currentText s2 = currentText s1 ∧
  ∃ m, growl s2 = growl s1 ++ [m] ∧
       growl_text m = conflict_message ∧
       growl_ttl m = Some (-1) ∧
       non_expiring m = true.
Proof.
  intros Hp Hf He s1 s2.
  destruct (attach_then_edits (EvSave options data) save_reaction p edits s)
    as (Hq & Hc); [by erewrite handle_save_fresh|].
  fold s1 in Hq, Hc. subst s2.
  rewrite (step_settle_single _ _ _ _ Hq Hc).
  cbn [run_reaction save_reaction onRejected]. unfold saveQuery_onError.
  rewrite He. cbn [Z.eqb Pos.eqb].
  rewrite run_watchers_stable by apply Hq.
  repeat split. eexists. by repeat split.
Qed.

Lemma run_jobs_rejected_other error rs s :
  status error ≠ 409 →
  run_jobs (map (fun r => (r, Rejected error)) rs) s = s.
Proof.
  intros He. induction rs as [|r rs IH]; [done|].
  rewrite map_cons. unfold run_jobs in *. cbn [fold_left fst snd].
  assert (run_reaction r (Rejected error) s = s) as ->; [|done].
  cbn [run_reaction]. destruct (onRejected r) as [[]|]; [|done].
  unfold saveQuery_onError. by destruct (Z.eqb_spec (status error) 409).
Qed.

(** C8.  A save rejected with a status other than 409: the value
    [saveQuery] returned is the collaborator's promise itself, which is
    rejected with that error, and the session is what it was just before
    the rejection apart from the promise's own cell; in particular the
    draft and [isDirty] are unchanged. *)
Theorem save_failure_propagates (s : Session) options data p
    (edits : list string) (error : HttpError) :
  QueryViewCtrl_saveQuery options data s = Some p →
  settled (cell_of s p) = None →
  status error ≠ 409 →
  let s1 := run (EvSave options data :: map EvEdit edits) s in
  let s2 := step (EvSettle p (Rejected error)) s1 in
  snd (saveQuery options data s) = Some p ∧
  settled (cell_of s2 p) = Some (Rejected error) ∧
  draft s2 = draft s1 ∧
  isDirty s2 = isDirty s1 ∧
  s2 = set_promises
         (<[p := {| settled := Some (Rejected error); reactions := [] |}]>
            (promises s1)) s1.
Proof.
  intros Hp Hpend He s1 s2.
  assert (Hq : quiescent s1).
  { subst s1. rewrite run_cons. apply run_edits_quiescent, step_quiescent. }
  assert (Hc : settled (cell_of s1 p) = None).
  { subst s1. rewrite run_cons.
    destruct (run_edits_loop edits (step (EvSave options data) s)) as (Hp1 & _).
    rewrite (cell_of_promises _ _ p Hp1).
    rewrite (step_save_pending _ _ p) by done.
    match goal with |- context [digest ?a] =>
      destruct (digest_loop a) as (Hp2 & _) end.
    by erewrite cell_of_insert by exact Hp2. }
  assert (Hs2 : s2 = set_promises
         (<[p := {| settled := Some (Rejected error); reactions := [] |}]>
            (promises s1)) s1).
  { subst s2. rewrite step_settle by (done || apply Hq).
    rewrite run_jobs_rejected_other by done.
    apply run_watchers_stable, Hq. }
  split; [by unfold saveQuery; rewrite Hp|].
  rewrite Hs2. split; [|done].
  unfold cell_of. cbn [promises set_promises]. by rewrite lookup_insert_eq.
Qed.

(** C3.  A fork on a fresh deferred that resolves with [savedQuery]: the
    editor text is unchanged, of the draft only the persisted text
    changes, to the text of the fork, the location is untouched, and
    the session is otherwise what it was just before the resolution. *)
Theorem fork_success_updates_baseline_only (s : Session) options data p
    (edits : list string) (savedQuery : SavedQuery) :
  QueryViewCtrl_forkQuery options data s = Some p →
  cell_of s p = pending_cell →
  let s1 := run (EvFork options data :: map EvEdit edits) s in
  let s2 := step (EvSettle p (Fulfilled savedQuery)) s1 in
  currentText s2 = currentText s1 ∧
  draft s2 = {| persistedText := sq_query savedQuery;
                draftText := draftText (draft s1);
                draftVersion := draftVersion (draft s1);
                isNew := isNew (draft s1) |} ∧
  location s2 = location s1 ∧
  s2 = set_queryText (sq_query savedQuery)
         (set_promises
            (<[p := {| settled := Some (Fulfilled savedQuery);
                       reactions := [] |}]> (promises s1)) s1).
Proof.
  intros Hp Hf s1 s2.
  destruct (attach_then_edits (EvFork options data) fork_reaction p edits s)
    as (Hq & Hc); [by erewrite handle_fork_fresh|].
  fold s1 in Hq, Hc. subst s2.
  rewrite (step_settle_single _ _ _ _ Hq Hc).
  cbn [run_reaction fork_reaction onFulfilled]. unfold forkQuery_onSuccess.
  rewrite run_watchers_stable by apply Hq. done.
Qed.

(** C5.  When the base controller returns no deferred, [saveQuery]
    leaves the session as it is, attaches nothing to any promise and
    returns [undefined]. *)
Theorem save_declined_is_noop (s : Session) options data :
  QueryViewCtrl_saveQuery options data s = None →
  saveQuery options data s = (s, None) ∧
  promises (fst (saveQuery options data s)) = promises s ∧
  handle (EvSave options data) s = s.
Proof.
  intros Hp. cbn [handle]. unfold saveQuery. by rewrite Hp.
Qed.

Lemma handle_isNewQuery e s : isNewQuery (handle e s) = isNewQuery s.
Proof.
  destruct e; cbn [handle]; try done.
  - unfold saveQuery, promise_then. by repeat case_match.
  - unfold forkQuery, promise_then. by repeat case_match.
  - unfold duplicateQuery, forkQuery, promise_then.
    by repeat (case_match; simplify_eq/=).
  - unfold deleteVisualization. by case_match.
  - unfold settle. by case_match.
  - unfold deleteVisualization_onSuccess, deleteVisualization_onError.
    by repeat case_match.
Qed.

Lemma step_isNewQuery e s : isNewQuery (step e s) = isNewQuery s.
Proof.
  unfold step. destruct (digest_loop (handle e s)) as (_ & _ & _ & _ & _ & ->).
  apply handle_isNewQuery.
Qed.

Lemma run_isNewQuery es s : isNewQuery (run es s) = isNewQuery s.
Proof.
  revert s. induction es as [|e es IH]; intros s; [done|].
  rewrite run_cons, IH. apply step_isNewQuery.
Qed.

Lemma open_session_quiescent query tab loc :
  quiescent (open_session query tab loc).
Proof.
  unfold open_session, quiescent.
  by destruct (digest_loop (QuerySourceCtrl query tab loc))
    as (_ & -> & -> & _ & -> & _).
Qed.

Lemma open_session_isNewQuery query tab loc :
  isNewQuery (open_session query tab loc) = js_not_id (q_id query).
Proof.
  unfold open_session.
  by destruct (digest_loop (QuerySourceCtrl query tab loc))
    as (_ & _ & _ & _ & _ & ->).
Qed.

(** C6.  In a session opened on [query], after any history of events, a
    successful save sets the path to the saved query's source link and
    keeps the fragment when the query had no id at session open
    ([!query.id]); otherwise the location is left alone. *)
Theorem save_success_redirects_new_query (query : Query) (tab : string)
    (loc : Location) (history : list Event) options data p
    (edits : list string) (savedQuery : SavedQuery) :
  QueryViewCtrl_saveQuery options data
    (run history (open_session query tab loc)) = Some p →
  cell_of (run history (open_session query tab loc)) p = pending_cell →
  let s := run history (open_session query tab loc) in
  let s1 := run (EvSave options data :: map EvEdit edits) s in
  let s2 := step (EvSettle p (Fulfilled savedQuery)) s1 in
  location s2 =
    (if js_not_id (q_id query)
     then location_path (sq_sourceLink savedQuery) (location s1)
     else location s1) ∧
  loc_hash (location s2) = loc_hash (location s1).
Proof.
  intros Hp Hf s s1 s2.
  destruct (attach_then_edits (EvSave options data) save_reaction p edits s)
    as (Hq & Hc); [by erewrite handle_save_fresh|].
  fold s1 in Hq, Hc.
  assert (Hn : isNewQuery s1 = js_not_id (q_id query)).
  { subst s1 s. by rewrite !run_isNewQuery, open_session_isNewQuery. }
  subst s2. rewrite (step_settle_single _ _ _ _ Hq Hc).
  cbn [run_reaction save_reaction onFulfilled]. clearbody s1.
  rewrite run_watchers_stable.
  - unfold saveQuery_onSuccess. cbn. rewrite Hn.
    by destruct (js_not_id (q_id query)).
  - unfold saveQuery_onSuccess. cbn. rewrite Hn.
    destruct (js_not_id (q_id query)); apply Hq.
Qed.

Lemma Events_record_quiescent a t i s :
  quiescent s → quiescent (Events_record a t i s).
Proof. done. Qed.

Lemma set_promises_quiescent m s : quiescent s → quiescent (set_promises m s).
Proof. done. Qed.

Lemma handle_duplicate_fresh p s :
  QueryViewCtrl_forkQuery (Some duplicate_options) None
    (Events_record "fork" "query" (q_id (scope_query s)) s) = Some p →
  cell_of s p = pending_cell →
  handle EvDuplicate s =
  set_promises
    (<[p := {| settled := None;
               reactions := [fork_reaction; redirect_reaction] |}]>
       (promises s))
    (Events_record "fork" "query" (q_id (scope_query s)) s).
Proof.
  intros Hp Hf. cbn [handle]. unfold duplicateQuery, forkQuery.
  rewrite Hp. cbn [fst].
  change (cell_of (Events_record "fork" "query" (q_id (scope_query s)) s) p
          = pending_cell) in Hf.
  rewrite (promise_then_pending p fork_reaction)
    by (by rewrite Hf).
  rewrite Hf.
  rewrite promise_then_pending
    by (by erewrite cell_of_insert by reflexivity).
  erewrite cell_of_insert by reflexivity.
  cbn [promises set_promises reactions pending_cell app Events_record
       set_events].
  by rewrite insert_insert_eq.
Qed.

(** C7.  [duplicateQuery] is [forkQuery] invoked with the messages
    'Query forked' and 'Query could not be forked', followed on success
    by [redirect]: every component of the location is taken from the
    source link of the fork, so the old fragment is dropped, and the
    history entry is replaced. *)
Theorem duplicate_is_fork_then_redirect (s : Session) p
    (savedQuery : SavedQuery) :
  quiescent s →
  QueryViewCtrl_forkQuery (Some duplicate_options) None
    (Events_record "fork" "query" (q_id (scope_query s)) s) = Some p →
  cell_of s p = pending_cell →
  let s0 := Events_record "fork" "query" (q_id (scope_query s)) s in
  let forked := run [EvFork (Some duplicate_options) None;
                     EvSettle p (Fulfilled savedQuery)] s0 in
  let s' := run [EvDuplicate; EvSettle p (Fulfilled savedQuery)] s in
  successMessage duplicate_options = "Query forked" ∧
  errorMessage duplicate_options = "Query could not be forked" ∧
  s' = redirect savedQuery forked ∧
  location s' =
    location_replace (location_url (sq_sourceLink savedQuery) (location s)) ∧
  loc_path (location s') = url_path (sq_sourceLink savedQuery) ∧
  loc_hash (location s') = url_hash (sq_sourceLink savedQuery) ∧
  loc_replace (location s') = true.
Proof.
  intros Hq Hp Hf s0 forked s'.
  assert (Hq0 : quiescent s0) by done.
  assert (Hf0 : cell_of s0 p = pending_cell) by done.
  assert (Hforked : forked =
    forkQuery_onSuccess savedQuery
      (set_promises
         (<[p := {| settled := Some (Fulfilled savedQuery);
                    reactions := [] |}]> (promises s0)) s0)).
  { subst forked. rewrite !run_cons. cbn [run fold_left].
    unfold step at 2. rewrite (handle_fork_fresh _ _ p) by done.
    rewrite digest_quiescent by done.
    erewrite step_settle_single;
      [|done|by erewrite cell_of_insert by reflexivity].
    cbn [run_reaction fork_reaction onFulfilled promises set_promises].
    rewrite insert_insert_eq. by rewrite run_watchers_stable by apply Hq0. }
  assert (Hs' : s' = redirect savedQuery forked).
  { rewrite Hforked. subst s'. rewrite !run_cons. cbn [run fold_left].
    unfold step at 2. rewrite (handle_duplicate_fresh p) by done.
    fold s0. change (promises s) with (promises s0).
    rewrite digest_quiescent by done.
    rewrite step_settle;
      [|apply Hq0|by erewrite cell_of_insert by reflexivity].
    erewrite cell_of_insert by reflexivity.
    cbn [reactions map run_jobs fold_left fst snd run_reaction fork_reaction
         redirect_reaction onFulfilled promises set_promises].
    rewrite insert_insert_eq. by rewrite run_watchers_stable by apply Hq0. }
  do 3 (split; [done|]). rewrite Hs', Hforked. done.
Qed.

(** C10.  When the base controller returns no deferred for the fork,
    [forkQuery] returns [undefined] normally, and [duplicateQuery],
    which calls [then] on that value unguarded, throws a TypeError. *)
Theorem duplicate_throws_when_fork_declines (s : Session) :
  QueryViewCtrl_forkQuery (Some duplicate_options) None
    (Events_record "fork" "query" (q_id (scope_query s)) s) = None →
  let s0 := Events_record "fork" "query" (q_id (scope_query s)) s in
  forkQuery (Some duplicate_options) None s0 = (s0, None) ∧
  duplicateQuery s = (s0, Threw TypeError).
Proof.
  intros Hp s0. subst s0. unfold duplicateQuery, forkQuery. cbv zeta.
  by rewrite Hp.
Qed.

Lemma step_delete_success k vis s :
  quiescent s →
  deleteRequests s !! k = Some vis →
  step (EvDeleteResponse k true) s =
  deleteVisualization_onSuccess vis
    (set_deleteRequests (delete k (deleteRequests s)) s).
Proof.
  intros Hq Hk. unfold step. cbn [handle]. rewrite Hk.
  apply digest_quiescent. unfold deleteVisualization_onSuccess.
  by case_match.
Qed.

(** C9.  A confirmed deletion whose request succeeds: the
    visualizations with the id of [vis] are removed and the others kept
    in order; when the selected tab equals that id ([==]) the tab
    becomes 'table' and the fragment with it, otherwise both stay. *)
Theorem delete_success_removes_visualization (s : Session)
    (vis : Visualization) :
  confirm ("Are you sure you want to delete " +:+ vis_name vis +:+ " ?")
    = true →
  let s1 := step (EvDeleteVisualization vis) s in
  let s2 := step (EvDeleteResponse (length (deleteRequests s)) true) s1 in
  q_visualizations (scope_query s2) =
    filter (fun v => vis_id vis ≠ vis_id v) (q_visualizations (scope_query s1)) ∧
  (∀ v, v ∈ q_visualizations (scope_query s2) ↔
        v ∈ q_visualizations (scope_query s1) ∧ vis_id v ≠ vis_id vis) ∧
  (if loose_eq (selectedTab s1) (vis_id vis)
   then selectedTab s2 = DEFAULT_TAB ∧
        location s2 = location_hash DEFAULT_TAB (location s1)
   else selectedTab s2 = selectedTab s1 ∧ location s2 = location s1).
Proof.
  intros Hc s1 s2.
  assert (Hq : quiescent s1) by apply step_quiescent.
  assert (Hk : deleteRequests s1 !! length (deleteRequests s) = Some vis).
  { subst s1. unfold step.
    destruct (digest_loop (handle (EvDeleteVisualization vis) s))
      as (_ & _ & _ & -> & _).
    cbn [handle]. unfold deleteVisualization. rewrite Hc.
    cbn [deleteRequests set_deleteRequests Events_record set_events].
    by rewrite list_lookup_middle. }
  subst s2. rewrite (step_delete_success _ _ _ Hq Hk). clearbody s1.
  unfold deleteVisualization_onSuccess.
  destruct (loose_eq (selectedTab s1) (vis_id vis)) eqn:E; cbn; rewrite ?E;
    (split; [done|]); (split; [|done]);
    intros v; rewrite list_elem_of_filter; intuition congruence.
Qed.

Lemma edit_dirty_invariant t s :
  quiescent s →
  t ≠ currentText s ∨ dirty_invariant s →
  dirty_invariant (edit t s).
Proof.
  intros [Hq Hw] Ht. unfold edit, step, digest, drain. cbn [handle].
  change (asyncQueue (set_query_query t s)) with (asyncQueue s).
  rewrite Hq. cbn [run_jobs fold_left]. unfold run_watchers, dirty_invariant.
  case_decide as Hd; [|done].
  cbn in Hd. rewrite Hw in Hd. destruct Ht as [Ht|Ht]; [congruence|].
  cbn. unfold dirty_invariant in Ht. congruence.
Qed.

Lemma saveQuery_onSuccess_dirty_invariant sq s :
  dirty_invariant (saveQuery_onSuccess sq s).
Proof.
  unfold dirty_invariant, saveQuery_onSuccess. by case_match.
Qed.

Lemma open_session_dirty_invariant query tab loc :
  dirty_invariant (open_session query tab loc).
Proof.
  unfold dirty_invariant, open_session. vm_compute.
  by rewrite String.eqb_refl.
Qed.
End Reconciliation.

(** ** The model at concrete inputs *)

Lemma url_hash_without_fragment (u : string) :
  after_char "#" u = None → url_hash u = EmptyString.
Proof. unfold url_hash. by intros ->. Qed.

(** The first example of section 8: edit, then a save that resolves with
    the edited text. *)
Example edit_then_save_is_clean :
  let s := @run sample_services
             [EvEdit "SELECT 2"; EvSave None None;
              EvSettle 0%nat (Fulfilled sample_saved)] sample_session in
  queryText s = "SELECT 2" ∧ isDirty s = false.
Proof. split; vm_compute; reflexivity. Qed.

Lemma save_success_reconciles_witness :
  @QueryViewCtrl_saveQuery sample_services None None sample_session
    = Some 0%nat ∧
  settled (cell_of sample_session 0) = None ∧
  isDirty
    (@run sample_services
       (EvSave None None :: map EvEdit ["SELECT 3"] ++
        [EvSettle 0%nat (Fulfilled sample_saved)]) sample_session) = true.
Proof.
  split; [reflexivity|]. split; [vm_compute; reflexivity|].
  destruct (@save_success_reconciles sample_services sample_session
              None None 0%nat ["SELECT 3"] sample_saved eq_refl
              ltac:(vm_compute; reflexivity)) as (_ & _ & _ & ->).
  vm_compute. reflexivity.
Defined.

(** C2.  The invariant [isDirty <-> currentText <> persistedText] does not
    survive a successful fork: the text is edited to "SELECT 2", the
    query is forked, and the fork resolves with that same text; the
    baseline is replaced but [isDirty], which the save callback
    recomputes and the fork callback does not, stays [true] although
    the two texts are now equal. *)
Theorem fork_success_leaves_isDirty_stale :
  let s := @run sample_services
             [EvEdit "SELECT 2"; EvFork None None;
              EvSettle 1%nat (Fulfilled sample_forked)] sample_session in
  currentText s = "SELECT 2" ∧
  queryText s = "SELECT 2" ∧
  isDirty s = true ∧
  ¬ dirty_invariant s.
Proof.
  split; [vm_compute; reflexivity|].
  split; [vm_compute; reflexivity|].
  split; [vm_compute; reflexivity|].
  unfold dirty_invariant. vm_compute. discriminate.
Qed.

Lemma fork_success_updates_baseline_only_witness :
  @QueryViewCtrl_forkQuery sample_services None None sample_session
    = Some 1%nat ∧
  cell_of sample_session 1 = pending_cell ∧
  draft
    (@step sample_services (EvSettle 1%nat (Fulfilled sample_forked))
       (@run sample_services (EvFork None None :: map EvEdit ["SELECT 2"])
          sample_session)) =
  {| persistedText := "SELECT 2"; draftText := "SELECT 2";
     draftVersion := 1; isNew := false |}.
Proof.
  split; [reflexivity|]. split; [vm_compute; reflexivity|].
  destruct (@fork_success_updates_baseline_only sample_services
              sample_session None None 1%nat ["SELECT 2"] sample_forked
              eq_refl ltac:(vm_compute; reflexivity)) as (_ & -> & _).
  vm_compute. reflexivity.
Defined.

Lemma save_conflict_warns_witness :
  @QueryViewCtrl_saveQuery sample_services None None sample_session
    = Some 0%nat ∧
  cell_of sample_session 0 = pending_cell ∧
  status {| status := 409 |} = 409 ∧
  growl
    (@step sample_services (EvSettle 0%nat (Rejected {| status := 409 |}))
       (@run sample_services (EvSave None None :: map EvEdit [])
          sample_session)) =
  [ {| growl_text := conflict_message; growl_ttl := Some (-1) |} ].
Proof.
  split; [reflexivity|]. split; [vm_compute; reflexivity|].
  split; [reflexivity|].
  destruct (@save_conflict_warns sample_services sample_session None None
              0%nat [] {| status := 409 |} eq_refl
              ltac:(vm_compute; reflexivity) eq_refl)
    as (_ & _ & _ & [text ttl] & -> & Htext & Httl & _).
  simpl in Htext, Httl. rewrite Htext, Httl. vm_compute. reflexivity.
Defined.

Lemma save_declined_is_noop_witness :
  @QueryViewCtrl_saveQuery declining_services None None sample_session
    = None ∧
  @saveQuery declining_services None None sample_session
    = (sample_session, None).
Proof.
  split; [reflexivity|].
  exact (proj1 (@save_declined_is_noop declining_services sample_session
                  None None eq_refl)).
Defined.

Lemma save_success_redirects_new_query_witness :
  @QueryViewCtrl_saveQuery sample_services None None
    (@run sample_services []
       (open_session sample_new_query "table" sample_new_location))
    = Some 0%nat ∧
  cell_of
    (@run sample_services []
       (open_session sample_new_query "table" sample_new_location)) 0
    = pending_cell ∧
  location
    (@step sample_services (EvSettle 0%nat (Fulfilled sample_saved))
       (@run sample_services (EvSave None None :: map EvEdit ["SELECT 2"])
          (@run sample_services []
             (open_session sample_new_query "table" sample_new_location)))) =
  {| loc_path := "/queries/7/source"; loc_search := "";
     loc_hash := "chart"; loc_replace := false |}.
Proof.
  split; [reflexivity|]. split; [vm_compute; reflexivity|].
  destruct (@save_success_redirects_new_query sample_services
              sample_new_query "table" sample_new_location
              [] None None 0%nat ["SELECT 2"] sample_saved eq_refl
              ltac:(vm_compute; reflexivity)) as (-> & _).
  vm_compute. reflexivity.
Defined.

(** A session opened on a persisted query stays where it is on save. *)
Example save_of_persisted_query_stays :
  location
    (@run sample_services
       [EvSave None None; EvSettle 0%nat (Fulfilled sample_saved)]
       sample_session) = sample_location.
Proof. vm_compute. reflexivity. Qed.

Lemma duplicate_is_fork_then_redirect_witness :
  quiescent sample_session ∧
  @QueryViewCtrl_forkQuery sample_services (Some duplicate_options) None
    (Events_record "fork" "query" (q_id (scope_query sample_session))
       sample_session) = Some 1%nat ∧
  cell_of sample_session 1 = pending_cell ∧
  location
    (@run sample_services
       [EvDuplicate; EvSettle 1%nat (Fulfilled sample_forked)]
       sample_session) =
  {| loc_path := "/queries/8/source"; loc_search := "";
     loc_hash := ""; loc_replace := true |}.
Proof.
  assert (Hq : quiescent sample_session) by (split; vm_compute; reflexivity).
  split; [exact Hq|]. split; [reflexivity|].
  split; [vm_compute; reflexivity|].
  destruct (@duplicate_is_fork_then_redirect sample_services sample_session
              1%nat sample_forked Hq eq_refl
              ltac:(vm_compute; reflexivity)) as (_ & _ & _ & -> & _).
  vm_compute. reflexivity.
Defined.

Lemma save_failure_propagates_witness :
  @QueryViewCtrl_saveQuery sample_services None None sample_session
    = Some 0%nat ∧
  settled (cell_of sample_session 0) = None ∧
  status {| status := 500 |} ≠ 409 ∧
  snd (@saveQuery sample_services None None sample_session) = Some 0%nat ∧
  settled
    (cell_of
       (@step sample_services (EvSettle 0%nat (Rejected {| status := 500 |}))
          (@run sample_services (EvSave None None :: map EvEdit ["SELECT 3"])
             sample_session)) 0) = Some (Rejected {| status := 500 |}).
Proof.
  assert (Hne : status {| status := 500 |} ≠ 409) by (simpl; lia).
  split; [reflexivity|]. split; [vm_compute; reflexivity|].
  split; [exact Hne|].
  destruct (@save_failure_propagates sample_services sample_session
              None None 0%nat ["SELECT 3"] {| status := 500 |} eq_refl
              ltac:(vm_compute; reflexivity) Hne) as (Hr & Hs & _).
  split; [exact Hr | exact Hs].
Defined.

Lemma delete_success_removes_visualization_witness :
  @confirm sample_services
    ("Are you sure you want to delete " +:+
     vis_name {| vis_id := 12; vis_name := "Chart" |} +:+ " ?") = true ∧
  q_visualizations
    (scope_query
       (@step sample_services
          (EvDeleteResponse (length (deleteRequests sample_session)) true)
          (@step sample_services
             (EvDeleteVisualization {| vis_id := 12; vis_name := "Chart" |})
             sample_session))) =
  [ {| vis_id := 11; vis_name := "Table" |};
    {| vis_id := 13; vis_name := "Pivot" |} ].
Proof.
  split; [reflexivity|].
  destruct (@delete_success_removes_visualization sample_services
              sample_session {| vis_id := 12; vis_name := "Chart" |} eq_refl)
    as (-> & _).
  vm_compute. reflexivity.
Defined.

(** The deleted visualization was the selected tab: the tab and the
    fragment fall back to the default. *)
Example delete_selected_tab_resets :
  let s := @run sample_services
             [EvDeleteVisualization {| vis_id := 12; vis_name := "Chart" |};
              EvDeleteResponse 0 true] sample_session in
  selectedTab s = "table" ∧ loc_hash (location s) = "table".
Proof. split; vm_compute; reflexivity. Qed.

Lemma duplicate_throws_when_fork_declines_witness :
  @QueryViewCtrl_forkQuery declining_services (Some duplicate_options) None
    (Events_record "fork" "query" (q_id (scope_query sample_session))
       sample_session) = None ∧
  snd (@duplicateQuery declining_services sample_session) = Threw TypeError.
Proof.
  split; [reflexivity|].
  destruct (@duplicate_throws_when_fork_declines declining_services
              sample_session eq_refl) as (_ & ->).
  reflexivity.
Defined.

(** * Further properties of the session *)

Section Session_properties.
Context `{SV : Services}.

(** *** Edits *)

Lemma step_edit_quiescent t s :
  quiescent s →
  step (EvEdit t) s =
  if decide (t = currentText s) then s
  else set_watchLast (Some t)
         (set_isDirty (strict_neq t (queryText s)) (set_query_query t s)).
Proof.
  intros [Hq Hw]. unfold step, digest, drain, run_watchers, currentText in *.
  destruct s as [[] ? ? ? ? ? ? ? ? ? ? ?]; simpl in *. subst.
  cbn [run_jobs fold_left]. simpl.
  repeat case_decide; simplify_eq; done.
Qed.

(** X1.  An edit that changes the text leaves [isDirty] equal to the
    comparison of the new text with [queryText], whatever the flag was
    before, and touches neither [queryText] nor the version. *)
Theorem edit_recomputes_isDirty (t : string) (s : Session) :
  quiescent s →
  t ≠ currentText s →
  currentText (edit t s) = t ∧
  isDirty (edit t s) = strict_neq t (queryText s) ∧
  queryText (edit t s) = queryText s ∧
  q_version (scope_query (edit t s)) = q_version (scope_query s) ∧
  dirty_invariant (edit t s).
Proof.
  intros Hq Ht. unfold edit, dirty_invariant.
  rewrite step_edit_quiescent by done. by rewrite decide_False.
Qed.

Lemma step_edit_invariant t s :
  quiescent s → dirty_invariant s → dirty_invariant (step (EvEdit t) s).
Proof.
  intros Hq Hi. rewrite step_edit_quiescent by done. by case_decide.
Qed.

(** X2.  Once [isDirty] agrees with the comparison of the two texts, it
    keeps agreeing through any sequence of edits. *)
Theorem edits_keep_dirty_invariant (edits : list string) (s : Session) :
  quiescent s →
  dirty_invariant s →
  dirty_invariant (run (map EvEdit edits) s).
Proof.
  revert s. induction edits as [|t edits IH]; intros s Hq Hi; [done|].
  rewrite map_cons, run_cons.
  apply IH; [apply step_quiescent | by apply step_edit_invariant].
Qed.

Lemma step_edit_canonical t s :
  quiescent s → dirty_invariant s →
  step (EvEdit t) s =
  set_watchLast (Some t)
    (set_isDirty (strict_neq t (queryText s)) (set_query_query t s)).
Proof.
  intros Hq Hi. rewrite step_edit_quiescent by done.
  case_decide as Hd; [|done]. destruct Hq as [_ Hw].
  unfold dirty_invariant, currentText in *.
  destruct s as [[] ? ? ? ? ? ? ? ? ? ? ?]; simpl in *. by subst.
Qed.

Lemma run_edits_snoc edits t s :
  quiescent s → dirty_invariant s →
  run (map EvEdit (edits ++ [t])) s = step (EvEdit t) s.
Proof.
  revert s. induction edits as [|t' edits IH]; intros s Hq Hi; [done|].
  cbn [app map]. rewrite run_cons.
  rewrite IH by (apply step_quiescent || by apply step_edit_invariant).
  rewrite (step_edit_canonical t s) by done.
  rewrite (step_edit_canonical t' s) by done.
  rewrite step_edit_canonical; [done| |done].
  split; [apply Hq|done].
Qed.

(** X3.  Only the latest edit matters: a burst of edits leaves the
    session exactly as its last edit alone would. *)
Theorem edits_coalesce (edits : list string) (t : string) (s : Session) :
  quiescent s →
  dirty_invariant s →
  run (map EvEdit (edits ++ [t])) s = edit t s.
Proof. apply run_edits_snoc. Qed.

(** X4.  Typing the persisted text back, after any edits, clears
    [isDirty]. *)
Theorem edit_back_to_persisted_is_clean (edits : list string) (s : Session) :
  quiescent s →
  dirty_invariant s →
  isDirty (run (map EvEdit (edits ++ [queryText s])) s) = false.
Proof.
  intros Hq Hi. rewrite run_edits_snoc, step_edit_canonical by done.
  cbn [isDirty set_watchLast set_isDirty]. unfold strict_neq.
  by rewrite String.eqb_refl.
Qed.

(** *** Session open *)

(** X5.  A session opens clean whatever the query text is: the baseline
    is the text of the query, [isDirty] is [false], nothing is queued,
    and exactly the view_source event is recorded. *)
Theorem open_session_is_clean (query : Query) (tab : string)
    (loc : Location) :
  let s := open_session query tab loc in
  queryText s = q_query query ∧
  currentText s = q_query query ∧
  isDirty s = false ∧
  dirty_invariant s ∧
  quiescent s ∧
  events s = [event_record "view_source" "query" (q_id query)] ∧
  growl s = [] ∧
  location s = loc.
Proof.
  unfold open_session, dirty_invariant, quiescent, digest, drain,
    run_watchers, watch_query_query, strict_neq, currentText.
  cbn. rewrite decide_False by done. cbn.
  by rewrite !String.eqb_refl.
Qed.

(** X6.  [isNewQuery] is fixed when the session opens: no event changes
    it, not even a successful save of the new query. *)
Theorem isNewQuery_fixed_for_session (query : Query) (tab : string)
    (loc : Location) (history : list Event) :
  isNewQuery (run history (open_session query tab loc))
  = js_not_id (q_id query).
Proof. by rewrite run_isNewQuery, open_session_isNewQuery. Qed.

(** *** Failures of fork and duplicate *)

Lemma run_jobs_rejected_fork error s :
  run_jobs [(fork_reaction, Rejected error)] s = s.
Proof. done. Qed.

(** X7.  A fork that is rejected, with any status, 409 included, changes
    nothing but the promise's own cell: no warning is added and the
    baseline stays; the promise returned is the collaborator's and is
    rejected with the error. *)
Theorem fork_failure_is_silent (s : Session) options data p
    (edits : list string) (error : HttpError) :
  QueryViewCtrl_forkQuery options data s = Some p →
  cell_of s p = pending_cell →
  let s1 := run (EvFork options data :: map EvEdit edits) s in
  let s2 := step (EvSettle p (Rejected error)) s1 in
  snd (forkQuery options data s) = Some p ∧
  settled (cell_of s2 p) = Some (Rejected error) ∧
  growl s2 = growl s1 ∧
  queryText s2 = queryText s1 ∧
  isDirty s2 = isDirty s1 ∧
  s2 = set_promises
         (<[p := {| settled := Some (Rejected error); reactions := [] |}]>
            (promises s1)) s1.
Proof.
  intros Hp Hf s1 s2.
  destruct (attach_then_edits (EvFork options data) fork_reaction p edits s)
    as (Hq & Hc); [by erewrite handle_fork_fresh|].
  fold s1 in Hq, Hc.
  assert (Hs2 : s2 = set_promises
         (<[p := {| settled := Some (Rejected error); reactions := [] |}]>
            (promises s1)) s1).
  { subst s2. rewrite (step_settle_single _ _ _ _ Hq Hc).
    cbn [run_reaction fork_reaction onRejected].
    apply run_watchers_stable, Hq. }
  split; [by unfold forkQuery; rewrite Hp|].
  rewrite Hs2. split; [|done].
  unfold cell_of. cbn [promises set_promises]. by rewrite lookup_insert_eq.
Qed.

(** X8.  When the fork behind [duplicateQuery] is rejected there is no
    navigation and no warning: the session is what it was, with the
    fork event recorded and the promise marked rejected. *)
Theorem duplicate_failure_stays (s : Session) p (error : HttpError) :
  quiescent s →
  QueryViewCtrl_forkQuery (Some duplicate_options) None
    (Events_record "fork" "query" (q_id (scope_query s)) s) = Some p →
  cell_of s p = pending_cell →
  let s' := run [EvDuplicate; EvSettle p (Rejected error)] s in
  location s' = location s ∧
  growl s' = growl s ∧
  queryText s' = queryText s ∧
  events s' =
    events s ++ [event_record "fork" "query" (q_id (scope_query s))] ∧
  s' = set_promises
         (<[p := {| settled := Some (Rejected error); reactions := [] |}]>
            (promises s))
         (Events_record "fork" "query" (q_id (scope_query s)) s).
Proof.
  intros Hq Hp Hf s'.
  assert (Hs' : s' = set_promises
         (<[p := {| settled := Some (Rejected error); reactions := [] |}]>
            (promises s))
         (Events_record "fork" "query" (q_id (scope_query s)) s)).
  { subst s'. rewrite !run_cons. cbn [run fold_left].
    unfold step at 2. rewrite (handle_duplicate_fresh p) by done.
    rewrite digest_quiescent by done.
    rewrite step_settle;
      [|apply Hq|by erewrite cell_of_insert by reflexivity].
    erewrite cell_of_insert by reflexivity.
    cbn [reactions map run_jobs fold_left fst snd run_reaction fork_reaction
         redirect_reaction onRejected promises set_promises].
    rewrite insert_insert_eq. by rewrite run_watchers_stable by apply Hq. }
  by rewrite Hs'.
Qed.

(** X9.  [duplicateQuery] records the fork event before it forks, so
    the event is recorded whatever the collaborator answers, also when
    the call ends in a TypeError; nothing else of the scope, the
    baseline, the location or the warnings changes at the call. *)
Theorem duplicate_always_records_fork_event (s : Session) :
  let s' := fst (duplicateQuery s) in
  events s' =
    events s ++ [event_record "fork" "query" (q_id (scope_query s))] ∧
  scope_query s' = scope_query s ∧
  isDirty s' = isDirty s ∧
  queryText s' = queryText s ∧
  location s' = location s ∧
  growl s' = growl s.
Proof.
  unfold duplicateQuery, forkQuery, promise_then. cbv zeta.
  by repeat (case_match; simplify_eq/=).
Qed.

(** *** Deleting a visualization *)

Lemma step_delete_request vis s :
  quiescent s →
  step (EvDeleteVisualization vis) s =
  if confirm (delete_prompt vis)
  then set_deleteRequests (deleteRequests s ++ [vis])
         (Events_record "delete" "visualization" (Some (vis_id vis)) s)
  else s.
Proof.
  intros Hq. unfold step. cbn [handle]. unfold deleteVisualization.
  change ("Are you sure you want to delete " +:+ vis_name vis +:+ " ?")
    with (delete_prompt vis).
  destruct (confirm (delete_prompt vis)); by rewrite digest_quiescent.
Qed.

(** X10.  Asking for a deletion removes nothing by itself: until the
    server answers, the visualizations, the selected tab and the
    location are as they were.  A confirmed request records the delete
    event and is kept pending; a cancelled dialog leaves the session
    unchanged. *)
Theorem delete_request_is_not_optimistic (vis : Visualization)
    (s : Session) :
  quiescent s →
  let s1 := step (EvDeleteVisualization vis) s in
  scope_query s1 = scope_query s ∧
  selectedTab s1 = selectedTab s ∧
  location s1 = location s ∧
  if confirm (delete_prompt vis)
  then deleteRequests s1 = deleteRequests s ++ [vis] ∧
       events s1 =
         events s ++
         [event_record "delete" "visualization" (Some (vis_id vis))]
  else s1 = s.
Proof.
  intros Hq s1. subst s1. rewrite step_delete_request by done.
  by destruct (confirm (delete_prompt vis)).
Qed.

Lemma step_delete_failure k vis s :
  quiescent s →
  deleteRequests s !! k = Some vis →
  step (EvDeleteResponse k false) s =
  deleteVisualization_onError
    (set_deleteRequests (delete k (deleteRequests s)) s).
Proof.
  intros Hq Hk. unfold step. cbn [handle]. rewrite Hk.
  by apply digest_quiescent.
Qed.

(** X11.  A deletion the server refuses keeps the visualization, the
    selected tab and the location; one error message is added, with the
    default time-to-live, and the request is no longer pending. *)
Theorem delete_failure_keeps_visualization (k : nat) (vis : Visualization)
    (s : Session) :
  quiescent s →
  deleteRequests s !! k = Some vis →
  let s' := step (EvDeleteResponse k false) s in
  scope_query s' = scope_query s ∧
  selectedTab s' = selectedTab s ∧
  location s' = location s ∧
  events s' = events s ∧
  deleteRequests s' = delete k (deleteRequests s) ∧
  ∃ m, growl s' = growl s ++ [m] ∧
       growl_text m =
         "Error deleting visualization. Maybe it's used in a dashboard?" ∧
       growl_ttl m = None ∧
       non_expiring m = false.
Proof.
  intros Hq Hk s'. subst s'. rewrite (step_delete_failure _ _ _ Hq Hk).
  repeat split. eexists. by repeat split.
Qed.

Lemma filter_all {A} (P : A → Prop) `{∀ x, Decision (P x)} (l : list A) :
  (∀ x, x ∈ l → P x) → filter P l = l.
Proof.
  induction l as [|x l IH]; intros Hall; [done|].
  rewrite filter_cons_True by (apply Hall; left).
  f_equal. apply IH. intros y Hy. apply Hall. by right.
Qed.

(** X12.  A successful deletion of a visualization whose id is not in
    the collection leaves the collection as it is. *)
Theorem delete_success_of_absent_id (k : nat) (vis : Visualization)
    (s : Session) :
  quiescent s →
  deleteRequests s !! k = Some vis →
  (∀ v, v ∈ q_visualizations (scope_query s) → vis_id v ≠ vis_id vis) →
  q_visualizations (scope_query (step (EvDeleteResponse k true) s)) =
  q_visualizations (scope_query s).
Proof.
  intros Hq Hk Habs. rewrite (step_delete_success _ _ _ Hq Hk).
  unfold deleteVisualization_onSuccess.
  case_match; cbn; apply filter_all; intros v Hv Heq;
    by apply (Habs v Hv).
Qed.

Lemma delete_delete_lt {A} (l : list A) (i j : nat) :
  (i < j)%nat → delete (j - 1)%nat (delete i l) = delete i (delete j l).
Proof.
  revert i j. induction l as [|x l IH]; intros i j Hij.
  - by destruct i, j.
  - destruct j as [|j]; [lia|]. replace (S j - 1)%nat with j by lia.
    destruct i as [|i]; [done|].
    destruct j as [|j]; [lia|]. cbn.
    f_equal. specialize (IH i (S j) ltac:(lia)).
    by replace (S j - 1)%nat with j in IH by lia.
Qed.

Lemma delete_success_visualizations vis s :
  q_visualizations (scope_query (deleteVisualization_onSuccess vis s)) =
  filter (fun v => vis_id vis ≠ vis_id v) (q_visualizations (scope_query s)).
Proof. unfold deleteVisualization_onSuccess. by case_match. Qed.

Lemma delete_success_requests vis s :
  deleteRequests (deleteVisualization_onSuccess vis s) = deleteRequests s.
Proof. unfold deleteVisualization_onSuccess. by case_match. Qed.

Lemma step_delete_success_fields k vis s :
  quiescent s →
  deleteRequests s !! k = Some vis →
  q_visualizations (scope_query (step (EvDeleteResponse k true) s)) =
    filter (fun v => vis_id vis ≠ vis_id v) (q_visualizations (scope_query s)) ∧
  deleteRequests (step (EvDeleteResponse k true) s) =
    delete k (deleteRequests s).
Proof.
  intros Hq Hk. rewrite (step_delete_success _ _ _ Hq Hk).
  by rewrite delete_success_visualizations, delete_success_requests.
Qed.

(** X13.  The answers to two pending deletions may arrive in either
    order: the collection loses the entries of both ids and both
    requests are gone, whichever answer comes first. *)
Theorem delete_responses_commute (i j : nat) (a b : Visualization)
    (s : Session) :
  quiescent s →
  (i < j)%nat →
  deleteRequests s !! i = Some a →
  deleteRequests s !! j = Some b →
  let first_a := run [EvDeleteResponse i true;
                      EvDeleteResponse (j - 1) true] s in
  let first_b := run [EvDeleteResponse j true;
                      EvDeleteResponse i true] s in
  q_visualizations (scope_query first_a) =
    q_visualizations (scope_query first_b) ∧
  q_visualizations (scope_query first_a) =
    filter (fun v => vis_id v ≠ vis_id a ∧ vis_id v ≠ vis_id b)
      (q_visualizations (scope_query s)) ∧
  deleteRequests first_a = deleteRequests first_b.
Proof.
  intros Hq Hij Hi Hj first_a first_b. subst first_a first_b.
  rewrite !run_cons. cbn [run fold_left].
  assert (Hj' : delete i (deleteRequests s) !! (j - 1)%nat = Some b).
  { rewrite list_lookup_delete_ge by lia.
    by replace (S (j - 1)) with j by lia. }
  assert (Hi' : delete j (deleteRequests s) !! i = Some a).
  { by rewrite list_lookup_delete_lt by lia. }
  destruct (step_delete_success_fields i a s Hq Hi) as (Hva & Hra).
  destruct (step_delete_success_fields j b s Hq Hj) as (Hvb & Hrb).
  destruct (step_delete_success_fields (j - 1) b
              (step (EvDeleteResponse i true) s)) as (Hvab & Hrab);
    [apply step_quiescent | by rewrite Hra |].
  destruct (step_delete_success_fields i a
              (step (EvDeleteResponse j true) s)) as (Hvba & Hrba);
    [apply step_quiescent | by rewrite Hrb |].
  rewrite Hvab, Hvba, Hrab, Hrba, Hva, Hvb, Hra, Hrb.
  rewrite !list_filter_filter. repeat split.
  - apply list_filter_iff. intros v. tauto.
  - apply list_filter_iff. intros v. split; intros [? ?]; split; congruence.
  - by apply delete_delete_lt.
Qed.

(** *** Saves in flight *)

Lemma step_save_promises options data p s :
  QueryViewCtrl_saveQuery options data s = Some p →
  settled (cell_of s p) = None →
  promises (step (EvSave options data) s) =
  <[p := {| settled := None;
            reactions := reactions (cell_of s p) ++ [save_reaction] |}]>
    (promises s).
Proof.
  intros Hp Hpend. rewrite (step_save_pending _ _ p) by done.
  match goal with |- context [digest ?a] =>
    by destruct (digest_loop a) as (-> & _) end.
Qed.

Lemma step_settle_promises p o s :
  settled (cell_of s p) = None →
  promises (step (EvSettle p o) s) =
  <[p := {| settled := Some o; reactions := [] |}]> (promises s).
Proof.
  intros Hpend. unfold step. cbn [handle].
  destruct (digest_loop (settle p o s)) as (-> & _).
  by rewrite settle_pending.
Qed.

Lemma cell_of_insert_ne p q c s s' :
  promises s' = <[q := c]> (promises s) → p ≠ q → cell_of s' p = cell_of s p.
Proof. unfold cell_of. intros -> Hne. by rewrite lookup_insert_ne. Qed.

Lemma step_settle_save_last p sq old s :
  asyncQueue s = [] →
  cell_of s p = {| settled := None; reactions := old ++ [save_reaction] |} →
  reconciled sq (step (EvSettle p (Fulfilled sq)) s).
Proof.
  intros Hq Hc. rewrite step_settle by (by rewrite ?Hc).
  rewrite Hc. cbn [reactions]. rewrite map_app, run_jobs_app.
  apply run_watchers_reconciled, saveQuery_onSuccess_reconciled.
Qed.

(** X15.  With two saves in flight the answers are applied in the order
    they arrive: when the answer to the first save comes after the
    answer to the second, the baseline and the version end up being
    those of the first save. *)
Theorem late_save_response_wins (s : Session) options1 data1 options2 data2
    (p1 p2 : nat) (first second : SavedQuery) :
  QueryViewCtrl_saveQuery options1 data1 s = Some p1 →
  QueryViewCtrl_saveQuery options2 data2 (step (EvSave options1 data1) s)
    = Some p2 →
  p1 ≠ p2 →
  settled (cell_of s p1) = None →
  settled (cell_of s p2) = None →
  let s' := run [EvSave options1 data1; EvSave options2 data2;
                 EvSettle p2 (Fulfilled second);
                 EvSettle p1 (Fulfilled first)] s in
  queryText s' = sq_query first ∧
  q_version (scope_query s') = sq_version first ∧
  isDirty s' = strict_neq (currentText s') (sq_query first).
Proof.
  intros Hp1 Hp2 Hne Hpend1 Hpend2 s'. subst s'.
  rewrite !run_cons. cbn [run fold_left].
  set (s1 := step (EvSave options1 data1) s) in *.
  set (s2 := step (EvSave options2 data2) s1).
  set (s3 := step (EvSettle p2 (Fulfilled second)) s2).
  pose proof (step_save_promises _ _ _ _ Hp1 Hpend1) as Hm1. fold s1 in Hm1.
  assert (Hc12 : cell_of s1 p2 = cell_of s p2)
    by (eapply cell_of_insert_ne; [exact Hm1|done]).
  assert (Hpend2' : settled (cell_of s1 p2) = None) by by rewrite Hc12.
  pose proof (step_save_promises _ _ _ _ Hp2 Hpend2') as Hm2. fold s2 in Hm2.
  assert (Hpend2'' : settled (cell_of s2 p2) = None)
    by by erewrite cell_of_insert by exact Hm2.
  pose proof (step_settle_promises p2 (Fulfilled second) s2 Hpend2'') as Hm3.
  fold s3 in Hm3.
  assert (Hc3 : cell_of s3 p1 =
    {| settled := None;
       reactions := reactions (cell_of s p1) ++ [save_reaction] |}).
  { rewrite (cell_of_insert_ne p1 p2 _ s2 s3 Hm3 Hne).
    rewrite (cell_of_insert_ne p1 p2 _ s1 s2 Hm2 Hne).
    by erewrite cell_of_insert by exact Hm1. }
  apply (step_settle_save_last p1 first (reactions (cell_of s p1)) s3);
    [|exact Hc3].
  apply step_quiescent.
Qed.

(** X16.  A conflict is reported and still propagated: after a 409 the
    promise [saveQuery] returned is rejected with the error, and
    [isDirty], the location and the recorded events are as they were. *)
Theorem save_conflict_propagates (s : Session) options data p
    (edits : list string) (error : HttpError) :
  QueryViewCtrl_saveQuery options data s = Some p →
  cell_of s p = pending_cell →
  status error = 409 →
  let s1 := run (EvSave options data :: map EvEdit edits) s in
  let s2 := step (EvSettle p (Rejected error)) s1 in
  snd (saveQuery options data s) = Some p ∧
  settled (cell_of s2 p) = Some (Rejected error) ∧
  isDirty s2 = isDirty s1 ∧
  location s2 = location s1 ∧
  events s2 = events s1.
Proof.
  intros Hp Hf He s1 s2.
  destruct (attach_then_edits (EvSave options data) save_reaction p edits s)
    as (Hq & Hc); [by erewrite handle_save_fresh|].
  fold s1 in Hq, Hc. subst s2.
  rewrite (step_settle_single _ _ _ _ Hq Hc).
  cbn [run_reaction save_reaction onRejected]. unfold saveQuery_onError.
  rewrite He. cbn [Z.eqb Pos.eqb].
  rewrite run_watchers_stable by apply Hq.
  split; [by unfold saveQuery; rewrite Hp|].
  split; [|done].
  unfold cell_of. cbn. by rewrite lookup_insert_eq.
Qed.
End Session_properties.

Section Shortcut_properties.
Context `{SV : Services}.
Variable executeQuery : Session → Session.

Lemma press_save_key canEdit key s :
  key = "meta+s" ∨ key = "ctrl+s" →
  press executeQuery canEdit key s =
  if canEdit then handle (EvSave None None) s else s.
Proof. by intros [-> | ->]. Qed.

(** X14.  The save shortcuts are guarded by [canEdit]: without it any
    number of presses of meta+s and ctrl+s leaves the session as it is,
    whatever the collaborators are; with it each press is
    [$scope.saveQuery()] without arguments.  The execute shortcuts are
    not guarded. *)
Theorem save_shortcuts_respect_canEdit (keys : list string) (s : Session) :
  Forall (fun key => key = "meta+s" ∨ key = "ctrl+s") keys →
  fold_left (fun acc key => press executeQuery false key acc) keys s = s ∧
  fold_left (fun acc key => press executeQuery true key acc) keys s =
    fold_left (fun acc _ => handle (EvSave None None) acc) keys s ∧
  press executeQuery false "meta+enter" s = executeQuery s ∧
  press executeQuery false "ctrl+enter" s = executeQuery s.
Proof.
  intros Hkeys. split; [|split; [|done]].
  - induction Hkeys as [|key keys Hkey _ IH]; [done|].
    cbn [fold_left]. by rewrite press_save_key.
  - revert s. induction Hkeys as [|key keys Hkey _ IH]; intros s; [done|].
    cbn [fold_left]. by rewrite press_save_key, IH.
Qed.
End Shortcut_properties.

(** ** The further properties at concrete inputs *)

Lemma sample_session_quiescent : quiescent sample_session.
Proof. split; vm_compute; reflexivity. Defined.

Lemma sample_session_dirty_invariant : dirty_invariant sample_session.
Proof. vm_compute. reflexivity. Defined.

Lemma edit_recomputes_isDirty_witness :
  quiescent sample_session ∧
  "SELECT 2" ≠ currentText sample_session ∧
  isDirty (@edit sample_services "SELECT 2" sample_session) = true.
Proof.
  assert (Hne : "SELECT 2" ≠ currentText sample_session)
    by (vm_compute; discriminate).
  split; [exact sample_session_quiescent|]. split; [exact Hne|].
  destruct (@edit_recomputes_isDirty sample_services "SELECT 2"
              sample_session sample_session_quiescent Hne) as (_ & -> & _).
  vm_compute. reflexivity.
Defined.

Lemma edits_keep_dirty_invariant_witness :
  quiescent sample_session ∧
  dirty_invariant sample_session ∧
  dirty_invariant
    (@run sample_services (map EvEdit ["SELECT 2"; "SELECT 1"; "SELECT 3"])
       sample_session).
Proof.
  split; [exact sample_session_quiescent|].
  split; [exact sample_session_dirty_invariant|].
  exact (@edits_keep_dirty_invariant sample_services
           ["SELECT 2"; "SELECT 1"; "SELECT 3"] sample_session
           sample_session_quiescent sample_session_dirty_invariant).
Defined.

Lemma edits_coalesce_witness :
  quiescent sample_session ∧
  dirty_invariant sample_session ∧
  @run sample_services (map EvEdit (["SELECT 2"; "SELECT 22"] ++ ["SELECT 3"]))
    sample_session
  = @edit sample_services "SELECT 3" sample_session.
Proof.
  split; [exact sample_session_quiescent|].
  split; [exact sample_session_dirty_invariant|].
  exact (@edits_coalesce sample_services ["SELECT 2"; "SELECT 22"]
           "SELECT 3" sample_session
           sample_session_quiescent sample_session_dirty_invariant).
Defined.

Lemma edit_back_to_persisted_is_clean_witness :
  quiescent sample_session ∧
  dirty_invariant sample_session ∧
  isDirty
    (@run sample_services
       (map EvEdit (["SELECT 2"; "SELECT 3"] ++ [queryText sample_session]))
       sample_session) = false.
Proof.
  split; [exact sample_session_quiescent|].
  split; [exact sample_session_dirty_invariant|].
  exact (@edit_back_to_persisted_is_clean sample_services
           ["SELECT 2"; "SELECT 3"] sample_session
           sample_session_quiescent sample_session_dirty_invariant).
Defined.

Lemma fork_failure_is_silent_witness :
  @QueryViewCtrl_forkQuery sample_services None None sample_session
    = Some 1%nat ∧
  cell_of sample_session 1 = pending_cell ∧
  growl
    (@step sample_services (EvSettle 1%nat (Rejected {| status := 409 |}))
       (@run sample_services (EvFork None None :: map EvEdit ["SELECT 2"])
          sample_session)) = [].
Proof.
  split; [reflexivity|]. split; [vm_compute; reflexivity|].
  destruct (@fork_failure_is_silent sample_services sample_session
              None None 1%nat ["SELECT 2"] {| status := 409 |} eq_refl
              ltac:(vm_compute; reflexivity)) as (_ & _ & -> & _).
  vm_compute. reflexivity.
Defined.

Lemma duplicate_failure_stays_witness :
  quiescent sample_session ∧
  @QueryViewCtrl_forkQuery sample_services (Some duplicate_options) None
    (Events_record "fork" "query" (q_id (scope_query sample_session))
       sample_session) = Some 1%nat ∧
  cell_of sample_session 1 = pending_cell ∧
  location
    (@run sample_services
       [EvDuplicate; EvSettle 1%nat (Rejected {| status := 500 |})]
       sample_session) = sample_location.
Proof.
  split; [exact sample_session_quiescent|]. split; [reflexivity|].
  split; [vm_compute; reflexivity|].
  destruct (@duplicate_failure_stays sample_services sample_session 1%nat
              {| status := 500 |} sample_session_quiescent eq_refl
              ltac:(vm_compute; reflexivity)) as (-> & _).
  vm_compute. reflexivity.
Defined.

Lemma delete_request_is_not_optimistic_witness :
  quiescent sample_session ∧
  scope_query
    (@step cancelling_services (EvDeleteVisualization sample_chart)
       sample_session) = scope_query sample_session.
Proof.
  split; [exact sample_session_quiescent|].
  exact (proj1 (@delete_request_is_not_optimistic cancelling_services
                  sample_chart sample_session sample_session_quiescent)).
Defined.

Lemma sample_two_requests_quiescent : quiescent sample_two_requests.
Proof. split; vm_compute; reflexivity. Defined.

Lemma delete_failure_keeps_visualization_witness :
  quiescent sample_two_requests ∧
  deleteRequests sample_two_requests !! 1%nat = Some sample_chart ∧
  scope_query
    (@step sample_services (EvDeleteResponse 1 false) sample_two_requests)
  = scope_query sample_two_requests.
Proof.
  split; [exact sample_two_requests_quiescent|].
  split; [vm_compute; reflexivity|].
  exact (proj1 (@delete_failure_keeps_visualization sample_services 1%nat
                  sample_chart sample_two_requests
                  sample_two_requests_quiescent
                  ltac:(vm_compute; reflexivity))).
Defined.

Lemma delete_success_of_absent_id_witness :
  quiescent sample_unknown_request ∧
  deleteRequests sample_unknown_request !! 0%nat
    = Some sample_gone ∧
  (∀ v, v ∈ q_visualizations (scope_query sample_unknown_request) →
        vis_id v ≠ vis_id sample_gone) ∧
  q_visualizations
    (scope_query
       (@step sample_services (EvDeleteResponse 0 true)
          sample_unknown_request))
  = q_visualizations (scope_query sample_unknown_request).
Proof.
  assert (Hq : quiescent sample_unknown_request)
    by (split; vm_compute; reflexivity).
  assert (Habs : ∀ v, v ∈ q_visualizations (scope_query sample_unknown_request)
                 → vis_id v ≠ vis_id sample_gone).
  { intros v Hv. vm_compute in Hv.
    repeat (apply elem_of_cons in Hv as [-> | Hv]; [simpl; lia|]).
    by apply elem_of_nil in Hv. }
  split; [exact Hq|]. split; [vm_compute; reflexivity|].
  split; [exact Habs|].
  exact (@delete_success_of_absent_id sample_services 0%nat
           sample_gone sample_unknown_request
           Hq ltac:(vm_compute; reflexivity) Habs).
Defined.

Lemma delete_responses_commute_witness :
  quiescent sample_two_requests ∧
  (0 < 1)%nat ∧
  deleteRequests sample_two_requests !! 0%nat = Some sample_table ∧
  deleteRequests sample_two_requests !! 1%nat = Some sample_chart ∧
  q_visualizations
    (scope_query
       (@run sample_services
          [EvDeleteResponse 0 true; EvDeleteResponse (1 - 1) true]
          sample_two_requests))
  = q_visualizations
      (scope_query
         (@run sample_services
            [EvDeleteResponse 1 true; EvDeleteResponse 0 true]
            sample_two_requests)).
Proof.
  split; [exact sample_two_requests_quiescent|].
  split; [lia|]. split; [vm_compute; reflexivity|].
  split; [vm_compute; reflexivity|].
  exact (proj1 (@delete_responses_commute sample_services 0%nat 1%nat
                  sample_table sample_chart sample_two_requests
                  sample_two_requests_quiescent ltac:(lia)
                  ltac:(vm_compute; reflexivity)
                  ltac:(vm_compute; reflexivity))).
Defined.

Lemma save_shortcuts_respect_canEdit_witness :
  Forall (fun key => key = "meta+s" ∨ key = "ctrl+s")
    ["meta+s"; "ctrl+s"; "meta+s"] ∧
  fold_left
    (fun acc key => @press sample_services (fun s => s) false key acc)
    ["meta+s"; "ctrl+s"; "meta+s"] sample_session = sample_session.
Proof.
  assert (Hkeys : Forall (fun key => key = "meta+s" ∨ key = "ctrl+s")
                    ["meta+s"; "ctrl+s"; "meta+s"]).
  { constructor; [by left|]. constructor; [by right|].
    constructor; [by left|]. constructor. }
  split; [exact Hkeys|].
  exact (proj1 (@save_shortcuts_respect_canEdit sample_services
                  (fun s => s) ["meta+s"; "ctrl+s"; "meta+s"]
                  sample_session Hkeys)).
Defined.

Lemma late_save_response_wins_witness :
  @QueryViewCtrl_saveQuery counting_services None None sample_session
    = Some 0%nat ∧
  @QueryViewCtrl_saveQuery counting_services None None
    (@step counting_services (EvSave None None) sample_session)
    = Some 1%nat ∧
  0%nat ≠ 1%nat ∧
  settled (cell_of sample_session 0) = None ∧
  settled (cell_of sample_session 1) = None ∧
  q_version
    (scope_query
       (@run counting_services
          [EvSave None None; EvSave None None;
           EvSettle 1%nat (Fulfilled {| sq_query := "SELECT 3";
                                        sq_version := 3;
                                        sq_sourceLink := "/queries/7/source" |});
           EvSettle 0%nat (Fulfilled sample_saved)] sample_session)) = 2.
Proof.
  assert (Hne : 0%nat ≠ 1%nat) by lia.
  split; [vm_compute; reflexivity|]. split; [vm_compute; reflexivity|].
  split; [exact Hne|]. split; [vm_compute; reflexivity|].
  split; [vm_compute; reflexivity|].
  destruct (@late_save_response_wins counting_services sample_session
              None None None None 0%nat 1%nat sample_saved
              {| sq_query := "SELECT 3"; sq_version := 3;
                 sq_sourceLink := "/queries/7/source" |}
              ltac:(vm_compute; reflexivity) ltac:(vm_compute; reflexivity)
              Hne ltac:(vm_compute; reflexivity)
              ltac:(vm_compute; reflexivity)) as (_ & -> & _).
  reflexivity.
Defined.

Lemma save_conflict_propagates_witness :
  @QueryViewCtrl_saveQuery sample_services None None sample_session
    = Some 0%nat ∧
  cell_of sample_session 0 = pending_cell ∧
  status {| status := 409 |} = 409 ∧
  settled
    (cell_of
       (@step sample_services (EvSettle 0%nat (Rejected {| status := 409 |}))
          (@run sample_services (EvSave None None :: map EvEdit ["SELECT 3"])
             sample_session)) 0) = Some (Rejected {| status := 409 |}).
Proof.
  split; [reflexivity|]. split; [vm_compute; reflexivity|].
  split; [reflexivity|].
  exact (proj1 (proj2 (@save_conflict_propagates sample_services
                         sample_session None None 0%nat ["SELECT 3"]
                         {| status := 409 |} eq_refl
                         ltac:(vm_compute; reflexivity) eq_refl))).
Defined.
